(** * The GCE host driver: instance/disk lifecycle controller

    A shallow embedding of [hosts/drivers/gce/gce.go] and
    [hosts/drivers/gce/compute_util.go]: the driver verbs (Create, GetState,
    Start, Stop, Remove, Restart, Kill) and the [ComputeUtil] helpers they are
    built from (disk, createDisk, deleteDisk, instance, createInstance,
    deleteInstance, executeCommands, waitForOp, waitForSSH).

    The remote API, the secure shell helpers, the file system, the clock and
    the logger are collaborators of the code.  They are an interface [Env]
    over an abstract world; every theorem of the first part holds for every
    implementation of that interface.  A computation returns its outcome, the
    chronological list of the calls it made (each with the answer it got) and
    the world it left behind. *)

From Stdlib Require Import String List ZArith Bool Lia Permutation.
Import ListNotations.
Open Scope string_scope.

(** ** Go values *)

(** Go's [error] interface.  [errorString] is what [fmt.Errorf] builds (the
    formatted text); [googleapi_Error] is the error the API client hands back
    for a response whose HTTP status is not 2xx ([Code] is that status,
    [Body] the text its [Error()] method prints).  A nil error is Rocq's
    [None] of type [option error]. *)
Inductive error : Type :=
  | errorString (msg : string)
  | googleapi_Error (Code : Z) (Body : string).

Definition Error (e : error) : string :=
  match e with
  | errorString msg => msg
  | googleapi_Error _ body => body
  end.

(** A lookup of a resource that does not exist is answered with HTTP 404. *)
Definition isNotFound (e : error) : bool :=
  match e with
  | googleapi_Error code _ => (code =? 404)%Z
  | errorString _ => false
  end.

(** The structures of the [compute/v1] client the code reads or builds. *)
Module raw.

Record Disk : Type := { Disk_Name : string }.

Record AttachedDisk : Type :=
  { Boot : bool; AutoDelete : bool; Type_ : string; Mode : string;
    Source : string }.

Record AccessConfig : Type := { AccessConfig_Type : string; NatIP : string }.

Record NetworkInterface : Type :=
  { AccessConfigs : list AccessConfig; Network : string }.

Record MetadataItems : Type := { Key : string; Value : string }.

Record Metadata : Type :=
  { Fingerprint : string; Items : list MetadataItems }.

Record Instance : Type :=
  { Name : string; Description : string; MachineType : string;
    Disks : list AttachedDisk; NetworkInterfaces : list NetworkInterface;
    Status : string; Metadata_ : option Metadata }.

Record OperationErrorErrors : Type :=
  { Code : string; Location : string; Message : string }.

Record OperationError : Type := { Errors : list OperationErrorErrors }.

Record Operation : Type :=
  { Op_Name : string; Op_Status : string; Op_Error : option OperationError }.

End raw.

(** The host states of package [hosts/state] that the driver returns. *)
Module state.
Inductive State : Type := None | Running | Stopped | Starting.
End state.

(** [%v] applied to an [OperationErrorErrors] value: the fields between
    braces, separated by one space. *)
Definition fmt_v (e : raw.OperationErrorErrors) : string :=
  "{" ++ raw.Code e ++ " " ++ raw.Location e ++ " " ++ raw.Message e ++ "}".

(** ** Calls and their answers *)

Inductive Level : Type := DebugLevel | InfoLevel | ErrorLevel.

(** One entry per call that leaves the process, with the answer received.
    A log entry keeps the format string and its operands as text. *)
Inductive Event : Type :=
  | Ev_newGCEService (storePath : string) (r : option error)
  | Ev_Disks_Get (project zone name : string)
      (r : option raw.Disk * option error)
  | Ev_Disks_Insert (project zone : string) (d : raw.Disk)
      (sourceImage : string) (r : option raw.Operation * option error)
  | Ev_Disks_Delete (project zone name : string)
      (r : option raw.Operation * option error)
  | Ev_Instances_Get (project zone name : string)
      (r : option raw.Instance * option error)
  | Ev_Instances_Insert (project zone : string) (i : raw.Instance)
      (r : option raw.Operation * option error)
  | Ev_Instances_Delete (project zone name : string)
      (r : option raw.Operation * option error)
  | Ev_Instances_SetMetadata (project zone name : string) (m : raw.Metadata)
      (r : option raw.Operation * option error)
  | Ev_ZoneOperations_Get (project zone name : string)
      (r : option raw.Operation * option error)
  | Ev_Sleep (seconds : Z)
  | Ev_GenerateSSHKey (path : string) (r : option error)
  | Ev_ReadFile (path : string) (r : string * option error)
  | Ev_WaitForTCP (addr : string) (r : option error)
  | Ev_SSHRun (ip : string) (port : Z) (user keyPath command : string)
      (r : option error)
  | Ev_Log (l : Level) (format : string) (args : list string).

Inductive Kind : Type :=
  | K_newGCEService | K_Disks_Get | K_Disks_Insert | K_Disks_Delete
  | K_Instances_Get | K_Instances_Insert | K_Instances_Delete
  | K_Instances_SetMetadata | K_ZoneOperations_Get | K_Sleep
  | K_GenerateSSHKey | K_ReadFile | K_WaitForTCP | K_SSHRun | K_Log.

Definition kind (e : Event) : Kind :=
  match e with
  | Ev_newGCEService _ _ => K_newGCEService
  | Ev_Disks_Get _ _ _ _ => K_Disks_Get
  | Ev_Disks_Insert _ _ _ _ _ => K_Disks_Insert
  | Ev_Disks_Delete _ _ _ _ => K_Disks_Delete
  | Ev_Instances_Get _ _ _ _ => K_Instances_Get
  | Ev_Instances_Insert _ _ _ _ => K_Instances_Insert
  | Ev_Instances_Delete _ _ _ _ => K_Instances_Delete
  | Ev_Instances_SetMetadata _ _ _ _ _ => K_Instances_SetMetadata
  | Ev_ZoneOperations_Get _ _ _ _ => K_ZoneOperations_Get
  | Ev_Sleep _ => K_Sleep
  | Ev_GenerateSSHKey _ _ => K_GenerateSSHKey
  | Ev_ReadFile _ _ => K_ReadFile
  | Ev_WaitForTCP _ _ => K_WaitForTCP
  | Ev_SSHRun _ _ _ _ _ _ => K_SSHRun
  | Ev_Log _ _ _ => K_Log
  end.

(** The calls that change a remote resource. *)
Definition mutating (k : Kind) : bool :=
  match k with
  | K_Disks_Insert | K_Disks_Delete | K_Instances_Insert
  | K_Instances_Delete | K_Instances_SetMetadata => true
  | _ => false
  end.

Definition mutations (evs : list Event) : list Kind :=
  filter mutating (map kind evs).

Definition isPoll (e : Event) : bool :=
  match e with Ev_ZoneOperations_Get _ _ _ _ => true | _ => false end.

Definition polls (evs : list Event) : nat := length (filter isPoll evs).

(** The collaborators.  Each call maps the world before it to its answer and
    the world after it.  [newGCEService] is the authenticated handle factory
    of [auth_util.go] (the client library returns a usable service whenever
    its error is nil); the [Disks_], [Instances_] and [ZoneOperations_] fields
    are the [Do()] of the corresponding request on that service. *)
Record Env (W : Type) : Type :=
  { newGCEService : string -> W -> option error * W;
    Disks_Get : string -> string -> string -> W ->
                (option raw.Disk * option error) * W;
    Disks_Insert : string -> string -> raw.Disk -> string -> W ->
                   (option raw.Operation * option error) * W;
    Disks_Delete : string -> string -> string -> W ->
                   (option raw.Operation * option error) * W;
    Instances_Get : string -> string -> string -> W ->
                    (option raw.Instance * option error) * W;
    Instances_Insert : string -> string -> raw.Instance -> W ->
                       (option raw.Operation * option error) * W;
    Instances_Delete : string -> string -> string -> W ->
                       (option raw.Operation * option error) * W;
    Instances_SetMetadata : string -> string -> string -> raw.Metadata -> W ->
                            (option raw.Operation * option error) * W;
    ZoneOperations_Get : string -> string -> string -> W ->
                         (option raw.Operation * option error) * W;
    time_Sleep : Z -> W -> W;
    ssh_GenerateSSHKey : string -> W -> option error * W;
    ioutil_ReadFile : string -> W -> (string * option error) * W;
    ssh_WaitForTCP : string -> W -> option error * W;
    ssh_Run : string -> Z -> string -> string -> string -> W ->
              option error * W }.

Arguments newGCEService {W}.
Arguments Disks_Get {W}.
Arguments Disks_Insert {W}.
Arguments Disks_Delete {W}.
Arguments Instances_Get {W}.
Arguments Instances_Insert {W}.
Arguments Instances_Delete {W}.
Arguments Instances_SetMetadata {W}.
Arguments ZoneOperations_Get {W}.
Arguments time_Sleep {W}.
Arguments ssh_GenerateSSHKey {W}.
Arguments ioutil_ReadFile {W}.
Arguments ssh_WaitForTCP {W}.
Arguments ssh_Run {W}.

(** ** Computations *)

(** How a call of a Go function ends: it returns, it panics (nil dereference,
    index out of range), or it is still inside [waitForOp]'s loop when the
    bound on the number of polls is reached. *)
Inductive outcome (A : Type) : Type :=
  | Done (a : A)
  | Panicked (msg : string)
  | Polling.

Arguments Done {A}.
Arguments Panicked {A}.
Arguments Polling {A}.

Record Run (W A : Type) : Type :=
  { result : outcome A; events : list Event; final : W }.

Arguments result {W A}.
Arguments events {W A}.
Arguments final {W A}.

Definition M (W A : Type) : Type := W -> Run W A.

Definition ret {W A} (a : A) : M W A :=
  fun w => {| result := Done a; events := []; final := w |}.

Definition bind {W A B} (m : M W A) (k : A -> M W B) : M W B :=
  fun w =>
    let r := m w in
    match result r with
    | Done a =>
        let r' := k a (final r) in
        {| result := result r'; events := events r ++ events r';
           final := final r' |}
    | Panicked msg =>
        {| result := Panicked msg; events := events r; final := final r |}
    | Polling =>
        {| result := Polling; events := events r; final := final r |}
    end.

Definition panic {W A} (msg : string) : M W A :=
  fun w => {| result := Panicked msg; events := []; final := w |}.

Definition polling {W A} : M W A :=
  fun w => {| result := Polling; events := []; final := w |}.

(** A call to a collaborator: one event, carrying the answer. *)
Definition call {W A} (f : W -> A * W) (ev : A -> Event) : M W A :=
  fun w =>
    {| result := Done (fst (f w)); events := [ev (fst (f w))];
       final := snd (f w) |}.

Definition log {W} (l : Level) (format : string) (args : list string)
  : M W unit :=
  fun w => {| result := Done tt; events := [Ev_Log l format args];
              final := w |}.

(** Dereferencing a pointer, and indexing a slice at 0. *)
Definition deref {W A} (p : option A) : M W A :=
  match p with
  | Some a => ret a
  | None => panic "invalid memory address or nil pointer dereference"
  end.

Definition index0 {W A} (l : list A) : M W A :=
  match l with
  | a :: _ => ret a
  | [] => panic "index out of range"
  end.

Declare Scope go_scope.
Delimit Scope go_scope with go.

Notation "x <- m ;; k" := (bind m (fun x => k))
  (at level 61, m at next level, right associativity) : go_scope.
Notation "' p <- m ;; k" := (bind m (fun x => match x with p => k end))
  (at level 61, p pattern, m at next level, right associativity) : go_scope.
Notation "m ;;; k" := (bind m (fun _ => k))
  (at level 61, right associativity) : go_scope.

Open Scope go_scope.

(** ** The driver *)

Record Driver : Type :=
  { InstanceName : string; Zone : string; MachineType : string;
    storePath : string; UserName : string; Project : string;
    sshKeyPath : string; publicSSHKeyPath : string }.

(** [ComputeUtil]; its [service] field is the handle obtained from
    [newGCEService], through which the calls of [Env] are made. *)
Record ComputeUtil : Type :=
  { zone : string; instanceName : string; userName : string;
    project : string; zoneURL : string; globalURL : string }.

Definition apiURL : string :=
  "https://www.googleapis.com/compute/v1/projects/".

Definition imageName : string :=
  "https://www.googleapis.com/compute/v1/projects/google-containers/global/images/container-vm-v20141016".

Definition dq : string := String (Ascii.ascii_of_nat 34) EmptyString.

Section Controller.

Context {W : Type} (E : Env W).

Definition newComputeUtil (driver : Driver)
  : M W (option ComputeUtil * option error) :=
  err <- call (newGCEService E (storePath driver))
              (Ev_newGCEService (storePath driver)) ;;
  match err with
  | Some e => ret (None, Some e)
  | None =>
      ret (Some {| zone := Zone driver;
                   instanceName := InstanceName driver;
                   userName := UserName driver;
                   project := Project driver;
                   zoneURL := apiURL ++ Project driver ++ "/zones/"
                                ++ Zone driver;
                   globalURL := apiURL ++ Project driver ++ "/global" |},
           None)
  end.

Definition diskName (c : ComputeUtil) : string :=
  instanceName c ++ "-disk".

(** disk returns the gce Disk. *)
Definition disk (c : ComputeUtil) : M W (option raw.Disk * option error) :=
  call (Disks_Get E (project c) (zone c) (diskName c))
       (Ev_Disks_Get (project c) (zone c) (diskName c)).

(** instance retrieves the instance. *)
Definition instance (c : ComputeUtil)
  : M W (option raw.Instance * option error) :=
  call (Instances_Get E (project c) (zone c) (instanceName c))
       (Ev_Instances_Get (project c) (zone c) (instanceName c)).

(** waitForOp waits for the GCE Operation to finish.  [fuel] bounds the
    number of polls; the Go loop has no bound. *)
Fixpoint waitForOp (fuel : nat) (c : ComputeUtil) (name : string)
  : M W (option error) :=
  match fuel with
  | O => polling
  | S fuel' =>
      '(op, err) <- call (ZoneOperations_Get E (project c) (zone c) name)
                         (Ev_ZoneOperations_Get (project c) (zone c) name) ;;
      match err with
      | Some e => ret (Some e)
      | None =>
          op <- deref op ;;
          log DebugLevel "operation %q status: %s"
              [raw.Op_Name op; raw.Op_Status op] ;;;
          if raw.Op_Status op =? "DONE" then
            match raw.Op_Error op with
            | Some oe =>
                first <- index0 (raw.Errors oe) ;;
                ret (Some (errorString
                             ("Operation error: " ++ fmt_v first)))
            | None => ret None
            end
          else
            call (fun w => (tt, time_Sleep E 1 w)) (fun _ => Ev_Sleep 1) ;;;
            waitForOp fuel' c name
      end
  end.

(** createDisk creates a persistent disk. *)
Definition createDisk (fuel : nat) (c : ComputeUtil) : M W (option error) :=
  log InfoLevel "Creating disk" [] ;;;
  '(op, err) <- call (Disks_Insert E (project c) (zone c)
                        {| raw.Disk_Name := diskName c |} imageName)
                     (Ev_Disks_Insert (project c) (zone c)
                        {| raw.Disk_Name := diskName c |} imageName) ;;
  match err with
  | Some e => ret (Some e)
  | None =>
      log InfoLevel "Waiting for disk..." [] ;;;
      op <- deref op ;;
      waitForOp fuel c (raw.Op_Name op)
  end.

(** deleteDisk deletes the persistent disk. *)
Definition deleteDisk (fuel : nat) (c : ComputeUtil) : M W (option error) :=
  log InfoLevel "Deleting disk." [] ;;;
  '(op, err) <- call (Disks_Delete E (project c) (zone c) (diskName c))
                     (Ev_Disks_Delete (project c) (zone c) (diskName c)) ;;
  match err with
  | Some e => ret (Some e)
  | None =>
      log InfoLevel "Waiting for disk to delete." [] ;;;
      op <- deref op ;;
      waitForOp fuel c (raw.Op_Name op)
  end.

(** deleteInstance deletes the instance, leaving the persistent disk. *)
Definition deleteInstance (fuel : nat) (c : ComputeUtil)
  : M W (option error) :=
  log InfoLevel "Deleting instance." [] ;;;
  '(op, err) <- call (Instances_Delete E (project c) (zone c)
                        (instanceName c))
                     (Ev_Instances_Delete (project c) (zone c)
                        (instanceName c)) ;;
  match err with
  | Some e => ret (Some e)
  | None =>
      log InfoLevel "Waiting for instance to delete." [] ;;;
      op <- deref op ;;
      waitForOp fuel c (raw.Op_Name op)
  end.

Fixpoint executeCommands (c : ComputeUtil) (commands : list string)
    (ip sshKeyPath : string) : M W (option error) :=
  match commands with
  | [] => ret None
  | command :: rest =>
      log DebugLevel "Running command: %v" [command] ;;;
      err <- call (ssh_Run E ip 22 (userName c) sshKeyPath command)
                  (Ev_SSHRun ip 22 (userName c) sshKeyPath command) ;;
      match err with
      | Some e => ret (Some e)
      | None => executeCommands c rest ip sshKeyPath
      end
  end.

(** configureInstance prepares the instance for docker usage. *)
Definition configureInstance (c : ComputeUtil) (ip sshKeyPath : string)
  : M W (option error) :=
  log InfoLevel "Setting up instance." [] ;;;
  executeCommands c
    [ "sudo sed -i 's/DOCKER_OPTS=.*/DOCKER_OPTS=" ++ dq
        ++ "-H 0.0.0.0:2375" ++ dq ++ "/g' /etc/default/docker";
      "sudo service docker restart" ]
    ip sshKeyPath.

(** updateDocker updates the docker daemon to the latest version. *)
Definition updateDocker (c : ComputeUtil) (ip sshKeyPath : string)
  : M W (option error) :=
  log InfoLevel "Updating docker." [] ;;;
  executeCommands c
    [ "sudo service docker stop";
      "sleep 10";
      "sudo wget https://get.docker.com/builds/Linux/x86_64/docker-latest -O /usr/bin/docker && sudo chmod +x /usr/bin/docker";
      "sudo service docker start" ]
    ip sshKeyPath.

(** waitForSSH waits for SSH to become ready on the instance. *)
Definition waitForSSH (c : ComputeUtil) (ip : string) : M W (option error) :=
  log InfoLevel "Waiting for SSH..." [] ;;;
  call (ssh_WaitForTCP E (ip ++ ":22")) (Ev_WaitForTCP (ip ++ ":22")).

(** The instance description sent by [createInstance]. *)
Definition newInstance (c : ComputeUtil) (machineType : string)
  : raw.Instance :=
  {| raw.Name := instanceName c;
     raw.Description := "docker host vm";
     raw.MachineType := zoneURL c ++ "/machineTypes/" ++ machineType;
     raw.Disks :=
       [ {| raw.Boot := true; raw.AutoDelete := false;
            raw.Type_ := "PERSISTENT"; raw.Mode := "READ_WRITE";
            raw.Source := zoneURL c ++ "/disks/" ++ instanceName c
                            ++ "-disk" |} ];
     raw.NetworkInterfaces :=
       [ {| raw.AccessConfigs :=
              [ {| raw.AccessConfig_Type := "ONE_TO_ONE_NAT";
                   raw.NatIP := "" |} ];
            raw.Network := globalURL c ++ "/networks/default" |} ];
     raw.Status := "";
     raw.Metadata_ := None |}.

(** createInstance creates a GCE VM instance. *)
Definition createInstance (fuel : nat) (c : ComputeUtil)
    (publicSSHKeyPath sshKeyPath machineType : string)
  : M W (option error) :=
  log InfoLevel "Creating instance." [] ;;;
  '(disk, _) <- disk c ;;
  err <- match disk with
         | None => createDisk fuel c
         | Some _ => ret None
         end ;;
  match err with
  | Some e => ret (Some e)
  | None =>
  '(op, err) <- call (Instances_Insert E (project c) (zone c)
                        (newInstance c machineType))
                     (Ev_Instances_Insert (project c) (zone c)
                        (newInstance c machineType)) ;;
  match err with
  | Some e => ret (Some e)
  | None =>
  log InfoLevel "Waiting for Instance..." [] ;;;
  op <- deref op ;;
  err <- waitForOp fuel c (raw.Op_Name op) ;;
  match err with
  | Some e => ret (Some e)
  | None =>
  '(instance, err) <- instance c ;;
  match err with
  | Some e => ret (Some e)
  | None =>
  instance <- deref instance ;;
  nic <- index0 (raw.NetworkInterfaces instance) ;;
  ac <- index0 (raw.AccessConfigs nic) ;;
  let ip := raw.NatIP ac in
  waitForSSH c ip ;;;
  '(sshKey, err) <- call (ioutil_ReadFile E publicSSHKeyPath)
                         (Ev_ReadFile publicSSHKeyPath) ;;
  match err with
  | Some e => ret (Some e)
  | None =>
  log InfoLevel "Uploading SSH Key" [] ;;;
  md <- deref (raw.Metadata_ instance) ;;
  let metadata :=
    {| raw.Fingerprint := raw.Fingerprint md;
       raw.Items := [ {| raw.Key := "sshKeys";
                         raw.Value := userName c ++ ":" ++ sshKey
                                        ++ String (Ascii.ascii_of_nat 10)
                                             EmptyString |} ] |} in
  '(op, err) <- call (Instances_SetMetadata E (project c) (zone c)
                        (instanceName c) metadata)
                     (Ev_Instances_SetMetadata (project c) (zone c)
                        (instanceName c) metadata) ;;
  match err with
  | Some e => ret (Some e)
  | None =>
  log InfoLevel "Waiting for SSH Key" [] ;;;
  op <- deref op ;;
  err <- waitForOp fuel c (raw.Op_Name op) ;;
  match err with
  | Some e => ret (Some e)
  | None =>
  err <- configureInstance c ip sshKeyPath ;;
  match err with
  | Some e => ret (Some e)
  | None => updateDocker c ip sshKeyPath
  end end end end end end end end.

(** ip retrieves and returns the external IP address of the instance. *)
Definition ip (c : ComputeUtil) : M W (string * option error) :=
  '(instance, err) <- call (Instances_Get E (project c) (zone c)
                              (instanceName c))
                           (Ev_Instances_Get (project c) (zone c)
                              (instanceName c)) ;;
  match err with
  | Some e => ret ("", Some e)
  | None =>
      instance <- deref instance ;;
      nic <- index0 (raw.NetworkInterfaces instance) ;;
      ac <- index0 (raw.AccessConfigs nic) ;;
      ret (raw.NatIP ac, None)
  end.

(** Create creates a GCE VM instance acting as a docker host. *)
Definition Create (fuel : nat) (driver : Driver) : M W (option error) :=
  '(c, err) <- newComputeUtil driver ;;
  match err with
  | Some e => ret (Some e)
  | None =>
  log InfoLevel "Creating GCE host..." [] ;;;
  c <- deref c ;;
  '(instance, _) <- instance c ;;
  match instance with
  | Some _ =>
      ret (Some (errorString
                   ("Instance " ++ InstanceName driver
                      ++ " already exists.")))
  | None =>
  log InfoLevel "Generating SSH Key" [] ;;;
  err <- call (ssh_GenerateSSHKey E (sshKeyPath driver))
              (Ev_GenerateSSHKey (sshKeyPath driver)) ;;
  match err with
  | Some e => ret (Some e)
  | None =>
      createInstance fuel c (publicSSHKeyPath driver) (sshKeyPath driver)
        (MachineType driver)
  end end end.

(** GetIP returns the IP address of the GCE instance. *)
Definition GetIP (driver : Driver) : M W (string * option error) :=
  '(c, err) <- newComputeUtil driver ;;
  match err with
  | Some e => ret ("", Some e)
  | None => c <- deref c ;; ip c
  end.

(** GetState returns the state value representing the current state of the
    host. *)
Definition GetState (driver : Driver)
  : M W (state.State * option error) :=
  '(c, err) <- newComputeUtil driver ;;
  match err with
  | Some e => ret (state.None, Some e)
  | None =>
  c <- deref c ;;
  '(disk, _) <- disk c ;;
  '(instance, _) <- instance c ;;
  match instance, disk with
  | None, None => ret (state.None, None)
  | None, Some _ => ret (state.Stopped, None)
  | Some instance, _ =>
      if raw.Status instance =? "PROVISIONING" then ret (state.Starting, None)
      else if raw.Status instance =? "STAGING" then ret (state.Starting, None)
      else if raw.Status instance =? "RUNNING" then ret (state.Running, None)
      else if raw.Status instance =? "STOPPING" then ret (state.Stopped, None)
      else if raw.Status instance =? "STOPPED" then ret (state.Stopped, None)
      else if raw.Status instance =? "TERMINATED"
           then ret (state.Stopped, None)
      else ret (state.None, None)
  end end.

(** Start creates a GCE instance and attaches it to the existing disk. *)
Definition Start (fuel : nat) (driver : Driver) : M W (option error) :=
  '(c, err) <- newComputeUtil driver ;;
  match err with
  | Some e => ret (Some e)
  | None =>
      c <- deref c ;;
      createInstance fuel c (publicSSHKeyPath driver) (sshKeyPath driver)
        (MachineType driver)
  end.

(** Stop deletes the GCE instance, but keeps the disk. *)
Definition Stop (fuel : nat) (driver : Driver) : M W (option error) :=
  '(c, err) <- newComputeUtil driver ;;
  match err with
  | Some e => ret (Some e)
  | None => c <- deref c ;; deleteInstance fuel c
  end.

Definition isRunning (s : state.State) : bool :=
  match s with state.Running => true | _ => false end.

(** Remove deletes the GCE instance and the disk. *)
Definition Remove (fuel : nat) (driver : Driver) : M W (option error) :=
  '(c, err) <- newComputeUtil driver ;;
  match err with
  | Some e => ret (Some e)
  | None =>
  '(s, err) <- GetState driver ;;
  match err with
  | Some e => ret (Some e)
  | None =>
  c <- deref c ;;
  (if isRunning s then
     err <- deleteInstance fuel c ;;
     match err with
     | Some e => log ErrorLevel "Error deleting instance: %v" [Error e]
     | None => ret tt
     end
   else ret tt) ;;;
  deleteDisk fuel c
  end end.

(** Restart deletes and recreates the GCE instance, keeping the disk. *)
Definition Restart (fuel : nat) (driver : Driver) : M W (option error) :=
  '(c, err) <- newComputeUtil driver ;;
  match err with
  | Some e => ret (Some e)
  | None =>
  c <- deref c ;;
  err <- deleteInstance fuel c ;;
  match err with
  | Some e => ret (Some e)
  | None =>
      createInstance fuel c (publicSSHKeyPath driver) (sshKeyPath driver)
        (MachineType driver)
  end end.

(** Kill deletes the GCE instance, but keeps the disk. *)
Definition Kill (fuel : nat) (driver : Driver) : M W (option error) :=
  Stop fuel driver.

End Controller.

(** ** The remaining verbs of the driver *)

(** The command built by [ssh.GetSSHCommand]: where to connect, as whom,
    with which key, and what to run. *)
Record SSHCommand : Type :=
  { cmd_ip : string; cmd_port : Z; cmd_user : string; cmd_keyPath : string;
    cmd_args : list string }.

(** CreateFlags are the command line flags used to create a driver; each
    pointer of the Go structure is the string it points to. *)
Record CreateFlags : Type :=
  { flag_InstanceName : string; flag_Zone : string;
    flag_MachineType : string; flag_UserName : string;
    flag_Project : string }.

Definition with_UserName (driver : Driver) (user : string) : Driver :=
  {| InstanceName := InstanceName driver; Zone := Zone driver;
     MachineType := MachineType driver; storePath := storePath driver;
     UserName := user; Project := Project driver;
     sshKeyPath := sshKeyPath driver;
     publicSSHKeyPath := publicSSHKeyPath driver |}.

Definition with_Project (driver : Driver) (proj : string) : Driver :=
  {| InstanceName := InstanceName driver; Zone := Zone driver;
     MachineType := MachineType driver; storePath := storePath driver;
     UserName := UserName driver; Project := proj;
     sshKeyPath := sshKeyPath driver;
     publicSSHKeyPath := publicSSHKeyPath driver |}.

(** SetConfigFromFlags initializes the driver based on the command line
    flags.  [GOOS] is [runtime.GOOS] and [Getenv] is [os.Getenv]; the driver
    the Go method updates in place is returned with the error. *)
Definition SetConfigFromFlags (GOOS : string) (Getenv : string -> string)
    (driver : Driver) (flags : CreateFlags) : Driver * option error :=
  let driver :=
    {| InstanceName := flag_InstanceName flags; Zone := flag_Zone flags;
       MachineType := flag_MachineType flags; storePath := storePath driver;
       UserName := UserName driver; Project := Project driver;
       sshKeyPath := sshKeyPath driver;
       publicSSHKeyPath := publicSSHKeyPath driver |} in
  let driver :=
    if flag_UserName flags =? "" then
      if GOOS =? "windows" then with_UserName driver (Getenv "USERNAME")
      else with_UserName driver (Getenv "USER")
    else driver in
  if UserName driver =? "" then
    (driver,
     Some (errorString "Unable to determine the current username."))
  else if flag_Project flags =? "" then
    (driver,
     Some (errorString
             "Please specify the GCE Project name using the option --gce-project."))
  else (with_Project driver (flag_Project flags), None).

(** NewDriver creates a Driver with the specified storePath.  [Join] is
    [path.Join]; the fields the Go literal leaves out are empty strings. *)
Definition NewDriver (Join : string -> string -> string) (store : string)
  : Driver * option error :=
  ({| InstanceName := ""; Zone := ""; MachineType := "";
      storePath := store; UserName := ""; Project := "";
      sshKeyPath := Join store "id_rsa";
      publicSSHKeyPath := Join store "id_rsa.pub" |}, None).

Section Facade.

Context {W : Type} (E : Env W).

(** GetURL returns the URL of the remote docker daemon. *)
Definition GetURL (driver : Driver) : M W (string * option error) :=
  '(ip, err) <- GetIP E driver ;;
  match err with
  | Some e => ret ("", Some e)
  | None => ret ("tcp://" ++ ip ++ ":2375", None)
  end.

(** GetSSHCommand returns a command that will run over SSH on the GCE
    instance. *)
Definition GetSSHCommand (driver : Driver) (args : list string)
  : M W (SSHCommand * option error) :=
  '(ip, _) <- GetIP E driver ;;
  ret ({| cmd_ip := ip; cmd_port := 22; cmd_user := UserName driver;
          cmd_keyPath := sshKeyPath driver; cmd_args := args |}, None).

(** Upgrade upgrades the docker daemon on the host to the latest version. *)
Definition Upgrade (driver : Driver) : M W (option error) :=
  '(c, err) <- newComputeUtil E driver ;;
  match err with
  | Some e => ret (Some e)
  | None =>
  '(ip, err) <- GetIP E driver ;;
  match err with
  | Some e => ret (Some e)
  | None =>
  c <- deref c ;;
  err <- updateDocker E c ip (sshKeyPath driver) ;;
  match err with
  | Some e => ret (Some e)
  | None => ret None
  end end end.

(** The clean-up helpers of the driver's test.  [project] and [zone] are the
    test's globals of these names and [c] its ComputeUtil; [log.Println] and
    [log.Printf] write at info level. *)
Definition cleanupDisk (fuel : nat) (project zone : string) (c : ComputeUtil)
  : M W unit :=
  log InfoLevel "Cleaning up disk." [] ;;;
  '(d, _) <- call (Disks_Get E project zone "test-instance-disk")
                  (Ev_Disks_Get project zone "test-instance-disk") ;;
  match d with
  | None => ret tt
  | Some _ =>
  '(op, err) <- call (Disks_Delete E project zone "test-instance-disk")
                     (Ev_Disks_Delete project zone "test-instance-disk") ;;
  match err with
  | Some e => log InfoLevel "Error cleaning up disk: %v" [Error e]
  | None =>
      op <- deref op ;;
      err <- waitForOp E fuel c (raw.Op_Name op) ;;
      match err with
      | Some e => log InfoLevel "Error cleaning up disk: %v" [Error e]
      | None => ret tt
      end
  end end.

Definition cleanupInstance (fuel : nat) (project zone : string)
    (c : ComputeUtil) : M W unit :=
  log InfoLevel "Cleaning up instance." [] ;;;
  '(d, _) <- call (Instances_Get E project zone "test-instance")
                  (Ev_Instances_Get project zone "test-instance") ;;
  match d with
  | None => ret tt
  | Some _ =>
  '(op, err) <- call (Instances_Delete E project zone "test-instance")
                     (Ev_Instances_Delete project zone "test-instance") ;;
  match err with
  | Some e => log InfoLevel "Error cleaning up instance: %v" [Error e]
  | None =>
      op <- deref op ;;
      err <- waitForOp E fuel c (raw.Op_Name op) ;;
      match err with
      | Some e => log InfoLevel "Error cleaning up instance: %v" [Error e]
      | None => ret tt
      end
  end end.

Definition cleanup (fuel : nat) (project zone : string) (c : ComputeUtil)
  : M W unit :=
  cleanupInstance fuel project zone c ;;;
  cleanupDisk fuel project zone c.

End Facade.

(** ** Predicates on runs *)

Definition isSSHRun (e : Event) : bool :=
  match e with Ev_SSHRun _ _ _ _ _ _ => true | _ => false end.

Definition isSleep (e : Event) : bool :=
  match e with Ev_Sleep _ => true | _ => false end.

Definition sleeps (evs : list Event) : nat := length (filter isSleep evs).

(** [always P m]: every call [m] makes, from any world, satisfies [P]. *)
Definition always {W A} (P : Event -> Prop) (m : M W A) : Prop :=
  forall w, Forall P (events (m w)).

(** A call that names a remote resource names the project [p], the zone [z]
    and the instance [n] or its disk; the instance inserted boots from that
    disk and keeps it on deletion; the metadata sent is the single item
    sshKeys, for [user]; a remote command goes to port 22 as [user]. *)
Definition scoped (p z n user : string) (e : Event) : Prop :=
  match e with
  | Ev_Disks_Get p' z' n' _ | Ev_Disks_Delete p' z' n' _ =>
      p' = p /\ z' = z /\ n' = n ++ "-disk"
  | Ev_Disks_Insert p' z' d img _ =>
      p' = p /\ z' = z /\ raw.Disk_Name d = n ++ "-disk" /\ img = imageName
  | Ev_Instances_Get p' z' n' _ | Ev_Instances_Delete p' z' n' _ =>
      p' = p /\ z' = z /\ n' = n
  | Ev_Instances_SetMetadata p' z' n' m _ =>
      p' = p /\ z' = z /\ n' = n
      /\ exists key,
          raw.Items m
          = [ {| raw.Key := "sshKeys";
                 raw.Value := user ++ ":" ++ key
                                ++ String (Ascii.ascii_of_nat 10)
                                     EmptyString |} ]
  | Ev_Instances_Insert p' z' i _ =>
      p' = p /\ z' = z /\ raw.Name i = n
      /\ exists d,
          raw.Disks i = [d] /\ raw.Boot d = true /\ raw.AutoDelete d = false
          /\ raw.Source d
             = (apiURL ++ p ++ "/zones/" ++ z) ++ "/disks/" ++ n ++ "-disk"
  | Ev_ZoneOperations_Get p' z' _ _ => p' = p /\ z' = z
  | Ev_SSHRun _ port user' _ _ _ => port = 22%Z /\ user' = user
  | _ => True
  end.

(** The kinds of calls Stop makes. *)
Definition stopKinds (k : Kind) : bool :=
  match k with
  | K_newGCEService | K_Log | K_Instances_Delete | K_ZoneOperations_Get
  | K_Sleep => true
  | _ => false
  end.

(** The kinds of calls createInstance makes. *)
Definition createKinds (k : Kind) : bool :=
  match k with
  | K_newGCEService | K_GenerateSSHKey | K_Disks_Delete
  | K_Instances_Delete => false
  | _ => true
  end.

(** The ComputeUtil that newComputeUtil builds for a driver. *)
Definition utilOf (driver : Driver) : ComputeUtil :=
  {| zone := Zone driver;
     instanceName := InstanceName driver;
     userName := UserName driver;
     project := Project driver;
     zoneURL := apiURL ++ Project driver ++ "/zones/" ++ Zone driver;
     globalURL := apiURL ++ Project driver ++ "/global" |}.

Definition notSetMetadata (k : Kind) : bool :=
  match k with K_Instances_SetMetadata => false | _ => true end.

(** ** The googlelogs log driver *)

Module googlelogs.

Definition name : string := "googlelogs".

Definition logStreamKey : string := "googlelogs-stream".

(** A Go [map[string]string] is the list of its entries, in the order a
    [range] loop visits them (an order Go leaves unspecified); indexing it
    with a key it does not hold gives the empty string. *)
Definition Map : Type := list (string * string).

Fixpoint index (m : Map) (key : string) : string :=
  match m with
  | [] => ""
  | (k, v) :: rest => if k =? key then v else index rest key
  end.

(** ValidateLogOpt looks for googlelogs-specific log options. *)
Fixpoint ValidateLogOpt (cfg : Map) : option error :=
  match cfg with
  | [] => None
  | (key, _) :: rest =>
      if key =? logStreamKey then ValidateLogOpt rest
      else Some (errorString
                   ("unknown log opt '" ++ key ++ "' for " ++ name
                      ++ " log driver"))
  end.

(** The fields of [logger.Context] and [logger.Message] the driver reads,
    and the entry it hands to the logging client. *)
Record Context : Type := { ContainerID : string; Config : Map }.

Record Message : Type :=
  { msg_ContainerID : string; msg_Line : string; msg_Source : string;
    msg_Timestamp : Z }.

Record Entry : Type := { Time : Z; Labels : Map; Payload : string }.

Section Stream.

(** The OAuth2 HTTP client and the logging client. *)
Variables (HttpClient Client : Type).

Record logStream : Type :=
  { client : Client; hostname : string; instanceName : string;
    zone : string; closed : bool }.

(** What the metadata server and the client libraries answer.
    [logging_NewClient] gets the project and HTTP client of the context,
    the project and the name of the log. *)
Record Platform : Type :=
  { metadata_ProjectID : string * option error;
    google_DefaultClient : option HttpClient * option error;
    logging_NewClient :
      string -> option HttpClient -> string -> string ->
      option Client * option error;
    metadata_Hostname : string * option error;
    metadata_InstanceName : string * option error;
    metadata_Zone : string * option error }.

(** New creates a googlelogs logger using the configuration passed in on
    the context.  The result comes with the lines written by [log.Printf],
    each a format and the error printed with it. *)
Definition New (pf : Platform) (ctx : Context)
  : list (string * option error)
    * outcome (option logStream * option error) :=
  let logStreamName :=
    if negb (index (Config ctx) logStreamKey =? "")
    then index (Config ctx) logStreamKey
    else ContainerID ctx in
  let '(projID, err) := metadata_ProjectID pf in
  if projID =? "" then
    ([("Error getting project ID: %v", err)], Done (None, err))
  else
  let '(hc, err) := google_DefaultClient pf in
  match err with
  | Some _ =>
      ([("Error creating default GCE OAuth2 client: %v", err)],
       Done (None, err))
  | None =>
  let '(logClient, err) := logging_NewClient pf projID hc projID logStreamName in
  match err with
  | Some _ =>
      ([("Error creating Google logging client: %v", err)],
       Done (None, err))
  | None =>
  let '(hostname, err) := metadata_Hostname pf in
  if hostname =? "" then
    ([("Error getting hostname: %v", err)], Done (None, err))
  else
  let '(instanceName, err) := metadata_InstanceName pf in
  if hostname =? "" then
    ([("Error getting instance name: %v", err)], Done (None, err))
  else
  let '(zone, err) := metadata_Zone pf in
  if hostname =? "" then
    ([("Error getting zone: %v", err)], Done (None, err))
  else
  match logClient with
  | None => ([], Panicked "invalid memory address or nil pointer dereference")
  | Some cl =>
      ([], Done (Some {| client := cl; hostname := hostname;
                         instanceName := instanceName; zone := zone;
                         closed := false |}, None))
  end end end.

(** Log submits messages for logging by an instance of the googlelogs
    logging driver.  It returns the entries handed to the client with its
    error; [clientLog] is the error the client's Log returns. *)
Definition Log (clientLog : Entry -> option error) (l : logStream)
    (msg : Message) : list Entry * option error :=
  let entry :=
    {| Time := msg_Timestamp msg;
       Labels := [ ("ContainerId", msg_ContainerID msg);
                   ("Source", msg_Source msg);
                   ("Hostname", hostname l);
                   ("InstanceName", instanceName l);
                   ("Zone", zone l) ];
       Payload := msg_Line msg |} in
  if negb (closed l) then
    let _ := clientLog entry in ([entry], None)
  else ([], None).

(** Close closes the instance of the googlelogs logging driver. *)
Definition Close (l : logStream) : logStream * option error := (l, None).

End Stream.

End googlelogs.


(** ** The state table of the specification *)

(** Following the spec's words (section 4.3): the logical state as a function
    of disk presence and of the status of the instance, if one exists. *)
Definition spec_table (diskPresent : bool) (instanceStatus : option string)
  : state.State :=
  match instanceStatus with
  | None => if diskPresent then state.Stopped else state.None
  | Some status =>
      if existsb (String.eqb status) ["PROVISIONING"; "STAGING"]
      then state.Starting
      else if existsb (String.eqb status) ["RUNNING"]
      then state.Running
      else if existsb (String.eqb status) ["STOPPING"; "STOPPED"; "TERMINATED"]
      then state.Stopped
      else state.None
  end.

Definition present {A} (p : option A) : bool :=
  match p with Some _ => true | None => false end.

(** ** A scripted provider

    The world is the transcript still to be played: each call takes the next
    answer when it has the shape the call expects, and fails otherwise. *)
Module Script.

Inductive Answer : Type :=
  | A_err (r : option error)
  | A_disk (r : option raw.Disk * option error)
  | A_instance (r : option raw.Instance * option error)
  | A_op (r : option raw.Operation * option error)
  | A_file (r : string * option error).

Definition World : Type := list Answer.

Definition off_script : error := errorString "unexpected call".

Definition next_err (w : World) : option error * World :=
  match w with
  | A_err r :: w' => (r, w')
  | _ => (Some off_script, w)
  end.

Definition next_disk (w : World)
  : (option raw.Disk * option error) * World :=
  match w with
  | A_disk r :: w' => (r, w')
  | _ => ((None, Some off_script), w)
  end.

Definition next_instance (w : World)
  : (option raw.Instance * option error) * World :=
  match w with
  | A_instance r :: w' => (r, w')
  | _ => ((None, Some off_script), w)
  end.

Definition next_op (w : World)
  : (option raw.Operation * option error) * World :=
  match w with
  | A_op r :: w' => (r, w')
  | _ => ((None, Some off_script), w)
  end.

Definition next_file (w : World) : (string * option error) * World :=
  match w with
  | A_file r :: w' => (r, w')
  | _ => (("", Some off_script), w)
  end.

Definition env : Env World :=
  {| newGCEService := fun _ => next_err;
     Disks_Get := fun _ _ _ => next_disk;
     Disks_Insert := fun _ _ _ _ => next_op;
     Disks_Delete := fun _ _ _ => next_op;
     Instances_Get := fun _ _ _ => next_instance;
     Instances_Insert := fun _ _ _ => next_op;
     Instances_Delete := fun _ _ _ => next_op;
     Instances_SetMetadata := fun _ _ _ _ => next_op;
     ZoneOperations_Get := fun _ _ _ => next_op;
     time_Sleep := fun _ w => w;
     ssh_GenerateSSHKey := fun _ => next_err;
     ioutil_ReadFile := fun _ => next_file;
     ssh_WaitForTCP := fun _ => next_err;
     ssh_Run := fun _ _ _ _ _ => next_err |}.

(** The host of the driver's own test. *)
Definition driver : Driver :=
  {| InstanceName := "test-instance"; Zone := "us-central1-a";
     MachineType := "n1-standard-1"; storePath := "/tmp/store";
     UserName := "user"; Project := "proj";
     sshKeyPath := "/tmp/store/id_rsa";
     publicSSHKeyPath := "/tmp/store/id_rsa.pub" |}.

Definition c : ComputeUtil :=
  {| zone := "us-central1-a"; instanceName := "test-instance";
     userName := "user"; project := "proj";
     zoneURL := apiURL ++ "proj" ++ "/zones/" ++ "us-central1-a";
     globalURL := apiURL ++ "proj" ++ "/global" |}.

Definition theDisk : raw.Disk := {| raw.Disk_Name := "test-instance-disk" |}.

Definition theInstance (status : string) : raw.Instance :=
  {| raw.Name := "test-instance"; raw.Description := "docker host vm";
     raw.MachineType := zoneURL c ++ "/machineTypes/n1-standard-1";
     raw.Disks := [];
     raw.NetworkInterfaces :=
       [ {| raw.AccessConfigs :=
              [ {| raw.AccessConfig_Type := "ONE_TO_ONE_NAT";
                   raw.NatIP := "203.0.113.7" |} ];
            raw.Network := globalURL c ++ "/networks/default" |} ];
     raw.Status := status;
     raw.Metadata_ := Some {| raw.Fingerprint := "fp-1"; raw.Items := [] |} |}.

Definition op (name status : string) (errs : list raw.OperationErrorErrors)
  : raw.Operation :=
  {| raw.Op_Name := name; raw.Op_Status := status;
     raw.Op_Error := match errs with
                     | [] => None
                     | _ => Some {| raw.Errors := errs |}
                     end |}.

Definition notFound : error :=
  googleapi_Error 404 "googleapi: Error 404: The resource was not found, notFound".

Definition inUse : error :=
  googleapi_Error 400 "googleapi: Error 400: The disk resource is already being used, resourceInUseByAnotherResource".

Definition timeout : error := errorString "dial tcp: i/o timeout".

Definition quota : raw.OperationErrorErrors :=
  {| raw.Code := "QUOTA_EXCEEDED"; raw.Location := "";
     raw.Message := "Quota 'CPUS' exceeded." |}.

Definition ok (name : string) : Answer := A_op (Some (op name "DONE" []), None).

Definition pending (name status : string) : Answer :=
  A_op (Some (op name status []), None).


(** Transcripts.  Each lists, in order, the answers the collaborators give. *)

Definition pubKey : string := "ssh-rsa AAAAB3Nza user@host".

Definition other : raw.OperationErrorErrors :=
  {| raw.Code := "RESOURCE_NOT_READY"; raw.Location := "";
     raw.Message := "The resource is not ready." |}.

(** GetState: handle, disk lookup (not found), instance lookup (an instance
    in a status the driver does not know). *)
Definition t_unknown_status : World :=
  [ A_err None; A_disk (None, Some notFound);
    A_instance (Some (theInstance "SUSPENDED"), None) ].

(** Create: handle, instance lookup (a running instance). *)
Definition t_create_exists : World :=
  [ A_err None; A_instance (Some (theInstance "RUNNING"), None) ].

Definition t_three_polls : World :=
  [ pending "op-1" "RUNNING"; pending "op-1" "RUNNING"; ok "op-1" ].

Definition t_done_failed : World :=
  [ A_op (Some (op "op-1" "DONE" [quota; other]), None); ok "op-1" ].

Definition t_poll_transport : World :=
  [ A_op (None, Some timeout); ok "op-1" ].

(** A poll answering RUNNING on an operation that already lists an error,
    then DONE without errors. *)
Definition t_running_with_errors : World :=
  [ A_op (Some (op "op-1" "RUNNING" [quota]), None); ok "op-1" ].

Definition t_disk_missing : World := [ A_disk (None, Some notFound) ].

Definition t_instance_missing : World := [ A_instance (None, Some notFound) ].

(** What GetState sees once neither resource exists. *)
Definition t_gone : World :=
  [ A_err None; A_disk (None, Some notFound);
    A_instance (None, Some notFound) ].

(** Remove of a running host: two handles (Remove, GetState), both lookups,
    the instance delete and its poll, the disk delete and its poll; then the
    lookups of the next GetState. *)
Definition t_remove_running : World :=
  ([ A_err None; A_err None; A_disk (Some theDisk, None);
    A_instance (Some (theInstance "RUNNING"), None);
    ok "op-instance"; ok "op-instance"; ok "op-disk"; ok "op-disk" ]
  ++ t_gone)%list.

(** Remove of a stopped host (disk only). *)
Definition t_remove_stopped : World :=
  ([ A_err None; A_err None; A_disk (Some theDisk, None);
    A_instance (None, Some notFound); ok "op-disk"; ok "op-disk" ]
  ++ t_gone)%list.

(** Remove of a host whose instance is TERMINATED and has no disk attached
    ([theInstance] lists none): the disk delete succeeds, and the provider
    goes on reporting the instance, which nothing deleted. *)
Definition t_remove_terminated : World :=
  [ A_err None; A_err None; A_disk (Some theDisk, None);
    A_instance (Some (theInstance "TERMINATED"), None);
    ok "op-disk"; ok "op-disk";
    A_err None; A_disk (None, Some notFound);
    A_instance (Some (theInstance "TERMINATED"), None) ].

(** Remove of a running host where the answer to the instance delete is lost
    in transport; the disk delete then succeeds. *)
Definition t_remove_delete_fails : World :=
  [ A_err None; A_err None; A_disk (Some theDisk, None);
    A_instance (Some (theInstance "RUNNING"), None);
    A_op (None, Some timeout); ok "op-disk"; ok "op-disk" ].

(** Stop or Restart where the instance delete fails. *)
Definition t_delete_fails : World :=
  [ A_err None; A_op (None, Some timeout) ].

(** The six remote commands of configureInstance and updateDocker. *)
Definition t_commands : World :=
  [ A_err None; A_err None; A_err None; A_err None; A_err None; A_err None ].

(** createInstance with the disk present; [reach] is the answer of the wait
    for a TCP connection. *)
Definition t_create_disk_present (reach : option error) : World :=
  ([ A_disk (Some theDisk, None); ok "op-insert"; ok "op-insert";
    A_instance (Some (theInstance "RUNNING"), None); A_err reach;
    A_file (pubKey, None); ok "op-metadata"; ok "op-metadata" ]
  ++ t_commands)%list.

(** createInstance with the disk absent. *)
Definition t_create_disk_absent : World :=
  ([ A_disk (None, Some notFound); ok "op-disk"; ok "op-disk";
    ok "op-insert"; ok "op-insert";
    A_instance (Some (theInstance "RUNNING"), None); A_err None;
    A_file (pubKey, None); ok "op-metadata"; ok "op-metadata" ]
  ++ t_commands)%list.

(** Restart of a running host. *)
Definition t_restart : World :=
  ([ A_err None; ok "op-delete"; ok "op-delete" ]
  ++ t_create_disk_present None)%list.

End Script.

(** ** Further transcripts and a scripted platform *)

Module Scenarios.

Import Script.

Definition keyError : error := errorString "ssh-keygen: exit status 1".

(** Create: handle, an instance lookup that fails in transport, a failed
    key generation. *)
Definition t_create_key_fails : World :=
  [ A_err None; A_instance (None, Some timeout); A_err (Some keyError) ].

(** GetIP and its users: handle, instance lookup. *)
Definition t_address : World :=
  [ A_err None; A_instance (Some (theInstance "RUNNING"), None) ].

Definition t_address_fails : World :=
  [ A_err None; A_instance (None, Some notFound) ].

(** Upgrade: its handle, then GetIP, then the four commands. *)
Definition t_upgrade : World :=
  (A_err None :: t_address ++ [A_err None; A_err None; A_err None; A_err None])%list.

(** Remove of a host of which nothing exists: the disk delete is refused. *)
Definition t_remove_nothing : World :=
  [ A_err None; A_err None; A_disk (None, Some notFound);
    A_instance (None, Some notFound); A_op (None, Some notFound) ].

(** A poll answered with neither operation nor error, and a poll answered
    DONE with an Error that lists no error. *)
Definition t_poll_nil : World := [ A_op (None, None) ].

Definition op_done_empty_errors : raw.Operation :=
  {| raw.Op_Name := "op-1"; raw.Op_Status := "DONE";
     raw.Op_Error := Some {| raw.Errors := [] |} |}.

Definition t_poll_empty_errors : World :=
  [ A_op (Some op_done_empty_errors, None) ].

(** A platform on which the instance name and the zone cannot be read. *)
Definition pf_no_zone : googlelogs.Platform unit unit :=
  {| googlelogs.metadata_ProjectID := ("my-project", None);
     googlelogs.google_DefaultClient := (Some tt, None);
     googlelogs.logging_NewClient := fun _ _ _ _ => (Some tt, None);
     googlelogs.metadata_Hostname := ("host-1", None);
     googlelogs.metadata_InstanceName := ("", Some timeout);
     googlelogs.metadata_Zone := ("", Some timeout) |}.

Definition ctx_plain : googlelogs.Context :=
  {| googlelogs.ContainerID := "0123abcd"; googlelogs.Config := [] |}.

Definition stream_no_zone : googlelogs.logStream unit :=
  {| googlelogs.client := tt; googlelogs.hostname := "host-1";
     googlelogs.instanceName := ""; googlelogs.zone := "";
     googlelogs.closed := false |}.

End Scenarios.


(** [prepend evs r]: the run [r] after the calls [evs] were made. *)
Definition prepend {W A} (evs : list Event) (r : Run W A) : Run W A :=
  {| result := result r; events := evs ++ events r; final := final r |}.

(** [emits P m]: every call [m] makes, from any world, is of a kind in [P]. *)
Definition emits {W A} (P : Kind -> bool) (m : M W A) : Prop :=
  forall w, forallb (fun e => P (kind e)) (events (m w)) = true.

(** The calls that never change a remote resource. *)
Definition readOnly (k : Kind) : bool := negb (mutating k).

(** Kinds of calls other than one given call. *)
Definition notWait (k : Kind) : bool :=
  match k with K_WaitForTCP => false | _ => true end.

Definition notDiskInsert (k : Kind) : bool :=
  match k with K_Disks_Insert => false | _ => true end.

Definition notDiskDelete (k : Kind) : bool :=
  match k with K_Disks_Delete => false | _ => true end.

(** ** Lists of events *)

Lemma mutations_app (a b : list Event) :
  mutations (a ++ b) = (mutations a ++ mutations b)%list.
Proof. unfold mutations. now rewrite map_app, filter_app. Qed.

Lemma polls_app (a b : list Event) : polls (a ++ b) = polls a + polls b.
Proof. unfold polls. now rewrite filter_app, length_app. Qed.

Lemma spec_table_rows :
  spec_table false None = state.None
  /\ spec_table true None = state.Stopped
  /\ (forall d, spec_table d (Some "PROVISIONING") = state.Starting)
  /\ (forall d, spec_table d (Some "STAGING") = state.Starting)
  /\ (forall d, spec_table d (Some "RUNNING") = state.Running)
  /\ (forall d, spec_table d (Some "STOPPING") = state.Stopped)
  /\ (forall d, spec_table d (Some "STOPPED") = state.Stopped)
  /\ (forall d, spec_table d (Some "TERMINATED") = state.Stopped)
  /\ (forall d s,
        ~ In s ["PROVISIONING"; "STAGING"; "RUNNING"; "STOPPING"; "STOPPED";
                "TERMINATED"] ->
        spec_table d (Some s) = state.None).
Proof.
  repeat split; try reflexivity.
  intros d s Hs. unfold spec_table. simpl.
  repeat match goal with
         | |- context [String.eqb s ?x] =>
             destruct (String.eqb_spec s x) as [->|_];
             [exfalso; apply Hs; simpl; tauto|]
         end.
  reflexivity.
Qed.

Create Rewrite HintDb muts.

Section Properties.

Context {W : Type} (E : Env W).

(** *** The state deriver *)

(** C1.  GetState returns the state of the table of section 4.3 for every
    combination of disk presence, instance presence and status string (an
    unrecognized status gives None), without an error and whatever errors
    the two lookups reported; it makes no mutating call. *)
Theorem GetState_table :
  forall (drv : Driver) (w w1 w2 w3 : W) d e1 i e2,
    newGCEService E (storePath drv) w = (None, w1) ->
    Disks_Get E (Project drv) (Zone drv) (InstanceName drv ++ "-disk") w1
      = ((d, e1), w2) ->
    Instances_Get E (Project drv) (Zone drv) (InstanceName drv) w2
      = ((i, e2), w3) ->
    result (GetState E drv w)
      = Done (spec_table (present d) (option_map raw.Status i), None)
    /\ mutations (events (GetState E drv w)) = []
    /\ final (GetState E drv w) = w3.
Proof.
  intros drv w w1 w2 w3 d e1 i e2 Hs Hd Hi.
  unfold GetState, newComputeUtil, disk, instance, diskName, bind, call.
  cbn. rewrite Hs. cbn. rewrite Hd. cbn. rewrite Hi. cbn.
  destruct i as [inst|]; [|destruct d; cbn; auto].
  cbn.
  destruct (raw.Status inst =? "PROVISIONING"); [cbn; auto|].
  destruct (raw.Status inst =? "STAGING"); [cbn; auto|].
  destruct (raw.Status inst =? "RUNNING"); [cbn; auto|].
  destruct (raw.Status inst =? "STOPPING"); [cbn; auto|].
  destruct (raw.Status inst =? "STOPPED"); [cbn; auto|].
  destruct (raw.Status inst =? "TERMINATED"); cbn; auto.
Qed.

(** *** Create *)

(** C2.  Create on a host whose instance lookup reports an instance fails
    with the error "Instance <name> already exists." after the handle
    factory and that one lookup: no disk insert, instance insert, metadata
    set or delete is issued. *)
Theorem Create_instance_exists :
  forall (fuel : nat) (drv : Driver) (w w1 w2 : W) i e,
    newGCEService E (storePath drv) w = (None, w1) ->
    Instances_Get E (Project drv) (Zone drv) (InstanceName drv) w1
      = ((Some i, e), w2) ->
    result (Create E fuel drv w)
      = Done (Some (errorString
                      ("Instance " ++ InstanceName drv
                         ++ " already exists.")))
    /\ events (Create E fuel drv w)
       = [ Ev_newGCEService (storePath drv) None;
           Ev_Log InfoLevel "Creating GCE host..." [];
           Ev_Instances_Get (Project drv) (Zone drv) (InstanceName drv)
             (Some i, e) ]
    /\ mutations (events (Create E fuel drv w)) = []
    /\ final (Create E fuel drv w) = w2.
Proof.
  intros fuel drv w w1 w2 i e Hs Hi.
  unfold Create, newComputeUtil, instance, bind, call, log.
  cbn. rewrite Hs. cbn. rewrite Hi. cbn. auto.
Qed.

(** *** The operation waiter, one poll at a time *)

Lemma waitForOp_transport :
  forall fuel c name w o e w1,
    ZoneOperations_Get E (project c) (zone c) name w = ((o, Some e), w1) ->
    waitForOp E (S fuel) c name w
    = {| result := Done (Some e);
         events := [Ev_ZoneOperations_Get (project c) (zone c) name
                      (o, Some e)];
         final := w1 |}.
Proof.
  intros fuel c name w o e w1 H.
  cbn [waitForOp]. unfold bind, call. cbn. rewrite H. reflexivity.
Qed.

Lemma waitForOp_not_done :
  forall fuel c name w op w1,
    ZoneOperations_Get E (project c) (zone c) name w
      = ((Some op, None), w1) ->
    (raw.Op_Status op =? "DONE") = false ->
    waitForOp E (S fuel) c name w
    = prepend [ Ev_ZoneOperations_Get (project c) (zone c) name
                  (Some op, None);
                Ev_Log DebugLevel "operation %q status: %s"
                  [raw.Op_Name op; raw.Op_Status op];
                Ev_Sleep 1 ]
              (waitForOp E fuel c name (time_Sleep E 1 w1)).
Proof.
  intros fuel c name w op w1 H Hst.
  cbn [waitForOp]. unfold bind, call, log, prepend. cbn.
  rewrite H. cbn. rewrite Hst. cbn.
  destruct (result (waitForOp E fuel c name (time_Sleep E 1 w1)));
    reflexivity.
Qed.

Lemma waitForOp_done_ok :
  forall fuel c name w op w1,
    ZoneOperations_Get E (project c) (zone c) name w
      = ((Some op, None), w1) ->
    raw.Op_Status op = "DONE" ->
    raw.Op_Error op = None ->
    waitForOp E (S fuel) c name w
    = {| result := Done None;
         events := [ Ev_ZoneOperations_Get (project c) (zone c) name
                       (Some op, None);
                     Ev_Log DebugLevel "operation %q status: %s"
                       [raw.Op_Name op; raw.Op_Status op] ];
         final := w1 |}.
Proof.
  intros fuel c name w op w1 H Hst Herr.
  cbn [waitForOp]. unfold bind, call, log. cbn.
  rewrite H. cbn. rewrite Herr, Hst. reflexivity.
Qed.

Lemma waitForOp_done_failed :
  forall fuel c name w op w1 first rest,
    ZoneOperations_Get E (project c) (zone c) name w
      = ((Some op, None), w1) ->
    raw.Op_Status op = "DONE" ->
    raw.Op_Error op = Some {| raw.Errors := first :: rest |} ->
    waitForOp E (S fuel) c name w
    = {| result := Done (Some (errorString
                                 ("Operation error: " ++ fmt_v first)));
         events := [ Ev_ZoneOperations_Get (project c) (zone c) name
                       (Some op, None);
                     Ev_Log DebugLevel "operation %q status: %s"
                       [raw.Op_Name op; raw.Op_Status op] ];
         final := w1 |}.
Proof.
  intros fuel c name w op w1 first rest H Hst Herr.
  cbn [waitForOp]. unfold bind, call, log. cbn.
  rewrite H. cbn. rewrite Herr, Hst. reflexivity.
Qed.

(** C4.  Polls answering RUNNING, RUNNING, then DONE without errors: the
    waiter returns nil after exactly three polls.  A poll answering DONE
    with a non-empty error list: the waiter returns the error
    "Operation error: <first error>" after that single poll. *)
Theorem waitForOp_polls :
  (forall fuel c name (w w1 w2 w3 : W) op1 op2 op3,
      ZoneOperations_Get E (project c) (zone c) name w
        = ((Some op1, None), w1) ->
      raw.Op_Status op1 = "RUNNING" ->
      ZoneOperations_Get E (project c) (zone c) name (time_Sleep E 1 w1)
        = ((Some op2, None), w2) ->
      raw.Op_Status op2 = "RUNNING" ->
      ZoneOperations_Get E (project c) (zone c) name (time_Sleep E 1 w2)
        = ((Some op3, None), w3) ->
      raw.Op_Status op3 = "DONE" ->
      raw.Op_Error op3 = None ->
      3 <= fuel ->
      result (waitForOp E fuel c name w) = Done None
      /\ polls (events (waitForOp E fuel c name w)) = 3
      /\ final (waitForOp E fuel c name w) = w3)
  /\ (forall fuel c name (w w1 : W) op first rest,
         ZoneOperations_Get E (project c) (zone c) name w
           = ((Some op, None), w1) ->
         raw.Op_Status op = "DONE" ->
         raw.Op_Error op = Some {| raw.Errors := first :: rest |} ->
         1 <= fuel ->
         result (waitForOp E fuel c name w)
           = Done (Some (errorString ("Operation error: " ++ fmt_v first)))
         /\ polls (events (waitForOp E fuel c name w)) = 1
         /\ final (waitForOp E fuel c name w) = w1).
Proof.
  split.
  - intros fuel c name w w1 w2 w3 op1 op2 op3 H1 S1 H2 S2 H3 S3 E3 Hf.
    destruct fuel as [|[|[|fuel]]]; try lia.
    rewrite (waitForOp_not_done _ _ _ _ _ _ H1)
      by (rewrite S1; reflexivity).
    rewrite (waitForOp_not_done _ _ _ _ _ _ H2)
      by (rewrite S2; reflexivity).
    rewrite (waitForOp_done_ok _ _ _ _ _ _ H3 S3 E3).
    cbn. auto.
  - intros fuel c name w w1 op first rest H Hst Herr Hf.
    destruct fuel as [|fuel]; try lia.
    rewrite (waitForOp_done_failed _ _ _ _ _ _ _ _ H Hst Herr).
    cbn. auto.
Qed.

(** C5, as the code has it.  A poll that fails at transport level ends the
    wait with that error, after that one query.  A poll answering DONE with
    a non-empty error list ends the wait with "Operation error: <first
    error>".  A poll answering any other status (PENDING, RUNNING) is
    followed by a one-second sleep and the next poll, whether or not the
    operation carries errors. *)
Theorem waitForOp_each_poll :
  forall fuel c name (w w1 : W),
    (forall o e,
        ZoneOperations_Get E (project c) (zone c) name w
          = ((o, Some e), w1) ->
        result (waitForOp E (S fuel) c name w) = Done (Some e)
        /\ events (waitForOp E (S fuel) c name w)
           = [Ev_ZoneOperations_Get (project c) (zone c) name (o, Some e)]
        /\ final (waitForOp E (S fuel) c name w) = w1)
    /\ (forall op first rest,
           ZoneOperations_Get E (project c) (zone c) name w
             = ((Some op, None), w1) ->
           raw.Op_Status op = "DONE" ->
           raw.Op_Error op = Some {| raw.Errors := first :: rest |} ->
           result (waitForOp E (S fuel) c name w)
             = Done (Some (errorString
                             ("Operation error: " ++ fmt_v first)))
           /\ polls (events (waitForOp E (S fuel) c name w)) = 1
           /\ final (waitForOp E (S fuel) c name w) = w1)
    /\ (forall op,
           ZoneOperations_Get E (project c) (zone c) name w
             = ((Some op, None), w1) ->
           raw.Op_Status op <> "DONE" ->
           waitForOp E (S fuel) c name w
           = prepend [ Ev_ZoneOperations_Get (project c) (zone c) name
                         (Some op, None);
                       Ev_Log DebugLevel "operation %q status: %s"
                         [raw.Op_Name op; raw.Op_Status op];
                       Ev_Sleep 1 ]
                     (waitForOp E fuel c name (time_Sleep E 1 w1))).
Proof.
  intros fuel c name w w1. split; [|split].
  - intros o e H. rewrite (waitForOp_transport _ _ _ _ _ _ _ H).
    cbn. auto.
  - intros op first rest H Hst Herr.
    rewrite (waitForOp_done_failed _ _ _ _ _ _ _ _ H Hst Herr).
    cbn. auto.
  - intros op H Hst. apply waitForOp_not_done; [exact H|].
    now apply String.eqb_neq.
Qed.

(** *** The resource accessor *)

(** C6, as the code has it.  Each lookup makes one Get call and returns its
    answer unchanged, pointer and error alike: an error of the provider,
    not-found included, reaches the caller as the error it is. *)
Theorem lookup_passthrough :
  forall c (w w' : W),
    (forall r,
        Disks_Get E (project c) (zone c) (instanceName c ++ "-disk") w
          = (r, w') ->
        result (disk E c w) = Done r
        /\ events (disk E c w)
           = [Ev_Disks_Get (project c) (zone c) (instanceName c ++ "-disk")
                r]
        /\ final (disk E c w) = w')
    /\ (forall r,
           Instances_Get E (project c) (zone c) (instanceName c) w
             = (r, w') ->
           result (instance E c w) = Done r
           /\ events (instance E c w)
              = [Ev_Instances_Get (project c) (zone c) (instanceName c) r]
           /\ final (instance E c w) = w').
Proof.
  intros c w w'. split; intros r H.
  - unfold disk, diskName, call. cbn. rewrite H. auto.
  - unfold instance, call. cbn. rewrite H. auto.
Qed.

(** *** Running a sequence *)

Lemma bind_done :
  forall A B (m : M W A) (k : A -> M W B) w a,
    result (m w) = Done a ->
    bind m k w = prepend (events (m w)) (k a (final (m w))).
Proof. intros A B m k w a H. unfold bind. rewrite H. reflexivity. Qed.

Lemma bind_panicked :
  forall A B (m : M W A) (k : A -> M W B) w msg,
    result (m w) = Panicked msg ->
    bind m k w
    = {| result := Panicked msg; events := events (m w); final := final (m w) |}.
Proof. intros A B m k w msg H. unfold bind. rewrite H. reflexivity. Qed.

Lemma bind_polling :
  forall A B (m : M W A) (k : A -> M W B) w,
    result (m w) = Polling ->
    bind m k w
    = {| result := Polling; events := events (m w); final := final (m w) |}.
Proof. intros A B m k w H. unfold bind. rewrite H. reflexivity. Qed.

Lemma bind_success :
  forall A B (m : M W A) (k : A -> M W B) w b,
    result (bind m k w) = Done b ->
    exists a,
      result (m w) = Done a
      /\ result (k a (final (m w))) = Done b
      /\ events (bind m k w) = (events (m w) ++ events (k a (final (m w))))%list.
Proof.
  intros A B m k w b H. unfold bind in *.
  destruct (result (m w)) as [a| |]; cbn in *; try discriminate.
  exists a. auto.
Qed.

Lemma call_bind :
  forall A B (f : W -> A * W) ev (k : A -> M W B) w,
    bind (call f ev) k w = prepend [ev (fst (f w))] (k (fst (f w)) (snd (f w))).
Proof. reflexivity. Qed.

Lemma log_bind :
  forall B l format args (k : unit -> M W B) w,
    bind (log l format args) k w = prepend [Ev_Log l format args] (k tt w).
Proof. reflexivity. Qed.

Lemma ret_bind :
  forall A B (a : A) (k : A -> M W B) w, bind (ret a) k w = prepend [] (k a w).
Proof. reflexivity. Qed.

Lemma panic_bind :
  forall A B msg (k : A -> M W B) w,
    bind (panic msg) k w
    = {| result := Panicked msg; events := []; final := w |}.
Proof. reflexivity. Qed.

Lemma waitForSSH_bind :
  forall B c addr (k : option error -> M W B) w,
    bind (waitForSSH E c addr) k w
    = prepend [ Ev_Log InfoLevel "Waiting for SSH..." [];
                Ev_WaitForTCP (addr ++ ":22")
                  (fst (ssh_WaitForTCP E (addr ++ ":22") w)) ]
        (k (fst (ssh_WaitForTCP E (addr ++ ":22") w))
           (snd (ssh_WaitForTCP E (addr ++ ":22") w))).
Proof. reflexivity. Qed.

Lemma emits_ret : forall A P (a : A), emits P (@ret W A a).
Proof. intros A P a w. reflexivity. Qed.

Lemma emits_panic : forall A P msg, emits P (@panic W A msg).
Proof. intros A P msg w. reflexivity. Qed.

Lemma emits_polling : forall A P, emits P (@polling W A).
Proof. intros A P w. reflexivity. Qed.

Lemma emits_deref : forall A P (p : option A), emits P (@deref W A p).
Proof. intros A P [a|] w; reflexivity. Qed.

Lemma emits_index0 : forall A P (l : list A), emits P (@index0 W A l).
Proof. intros A P [|a l] w; reflexivity. Qed.

Lemma emits_call :
  forall A P (f : W -> A * W) ev,
    (forall a, P (kind (ev a)) = true) -> emits P (call f ev).
Proof. intros A P f ev H w. cbn. now rewrite H. Qed.

Lemma emits_log :
  forall P l format args, P K_Log = true -> emits P (@log W l format args).
Proof. intros P l format args H w. cbn. now rewrite H. Qed.

Lemma emits_bind :
  forall A B P (m : M W A) (k : A -> M W B),
    emits P m -> (forall a, emits P (k a)) -> emits P (bind m k).
Proof.
  intros A B P m k Hm Hk w. unfold bind.
  destruct (result (m w)) as [a| |]; cbn; try apply Hm.
  rewrite forallb_app, Hm. apply Hk.
Qed.

Ltac emits_step :=
  match goal with
  | |- emits _ (bind _ _) => apply emits_bind; [|intros ?]
  | |- emits _ (ret _) => apply emits_ret
  | |- emits _ (panic _) => apply emits_panic
  | |- emits _ polling => apply emits_polling
  | |- emits _ (deref _) => apply emits_deref
  | |- emits _ (index0 _) => apply emits_index0
  | |- emits _ (call _ _) => apply emits_call; intros; reflexivity
  | |- emits _ (log _ _ _) => apply emits_log; reflexivity
  | |- emits _ (match ?x with _ => _ end) => destruct x
  end.

Lemma emits_waitForOp :
  forall P fuel c name,
    P K_ZoneOperations_Get = true -> P K_Log = true -> P K_Sleep = true ->
    emits P (waitForOp E fuel c name).
Proof.
  intros P fuel c name Hg Hl Hs.
  induction fuel as [|fuel IH]; cbn [waitForOp].
  - apply emits_polling.
  - repeat first [ exact IH
                 | apply emits_call; intros; assumption
                 | apply emits_log; assumption
                 | emits_step ].
Qed.

Lemma emits_executeCommands :
  forall P c commands ip key,
    P K_Log = true -> P K_SSHRun = true ->
    emits P (executeCommands E c commands ip key).
Proof.
  intros P c commands ip key Hl Hr.
  induction commands as [|command rest IH]; cbn [executeCommands].
  - apply emits_ret.
  - repeat first [ exact IH
                 | apply emits_call; intros; assumption
                 | apply emits_log; assumption
                 | emits_step ].
Qed.

Lemma emits_In :
  forall P evs k,
    forallb (fun e => P (kind e)) evs = true -> P k = false ->
    ~ In k (map kind evs).
Proof.
  intros P evs k H Hk Hin.
  apply in_map_iff in Hin. destruct Hin as [e [<- He]].
  rewrite forallb_forall in H. specialize (H e He). congruence.
Qed.

Lemma readOnly_mutations :
  forall evs,
    forallb (fun e => readOnly (kind e)) evs = true -> mutations evs = [].
Proof.
  induction evs as [|e evs IH]; [reflexivity|].
  cbn. intros H. apply andb_prop in H. destruct H as [He H].
  unfold mutations in *. cbn. unfold readOnly in He.
  apply negb_true_iff in He. rewrite He. now apply IH.
Qed.

Lemma waitForOp_readOnly :
  forall fuel c name w, mutations (events (waitForOp E fuel c name w)) = [].
Proof.
  intros. apply readOnly_mutations.
  apply emits_waitForOp; reflexivity.
Qed.

Lemma newComputeUtil_readOnly :
  forall drv w, mutations (events (newComputeUtil E drv w)) = [].
Proof.
  intros. apply readOnly_mutations. revert w.
  change (emits readOnly (newComputeUtil E drv)).
  unfold newComputeUtil. repeat emits_step.
Qed.

Lemma GetState_readOnly :
  forall drv w, mutations (events (GetState E drv w)) = [].
Proof.
  intros. apply readOnly_mutations. revert w.
  change (emits readOnly (GetState E drv)).
  unfold GetState, newComputeUtil, disk, instance. repeat emits_step.
Qed.

Ltac emits_auto :=
  unfold createInstance, createDisk, deleteDisk, deleteInstance,
    configureInstance, updateDocker, waitForSSH, disk, instance,
    newComputeUtil;
  cbv zeta;
  repeat first [ apply emits_waitForOp; reflexivity
               | apply emits_executeCommands; reflexivity
               | emits_step ].

Lemma mutations_In :
  forall P evs k,
    forallb (fun e => P (kind e)) evs = true -> P k = false ->
    ~ In k (mutations evs).
Proof.
  intros P evs k H Hk Hin. unfold mutations in Hin.
  apply filter_In in Hin. destruct Hin as [Hin _].
  exact (emits_In P evs k H Hk Hin).
Qed.

(** *** The delete and create steps *)

Lemma deleteInstance_mutations :
  forall fuel c w,
    mutations (events (deleteInstance E fuel c w)) = [K_Instances_Delete].
Proof.
  intros. unfold deleteInstance, bind, call, log. cbn.
  destruct (Instances_Delete E (project c) (zone c) (instanceName c) w)
    as [[op err] w1].
  cbn. destruct err; cbn; [reflexivity|].
  destruct op; cbn; [|reflexivity].
  f_equal. apply waitForOp_readOnly.
Qed.

Lemma deleteDisk_mutations :
  forall fuel c w,
    mutations (events (deleteDisk E fuel c w)) = [K_Disks_Delete].
Proof.
  intros. unfold deleteDisk, bind, call, log. cbn.
  destruct (Disks_Delete E (project c) (zone c) (diskName c) w)
    as [[op err] w1].
  cbn. destruct err; cbn; [reflexivity|].
  destruct op; cbn; [|reflexivity].
  f_equal. apply waitForOp_readOnly.
Qed.

Lemma createDisk_mutations :
  forall fuel c w,
    mutations (events (createDisk E fuel c w)) = [K_Disks_Insert].
Proof.
  intros. unfold createDisk, bind, call, log. cbn.
  destruct (Disks_Insert E (project c) (zone c)
              {| raw.Disk_Name := diskName c |} imageName w)
    as [[op err] w1].
  cbn. destruct err; cbn; [reflexivity|].
  destruct op; cbn; [|reflexivity].
  f_equal. apply waitForOp_readOnly.
Qed.

Lemma executeCommands_readOnly :
  forall c commands ip key w,
    mutations (events (executeCommands E c commands ip key w)) = [].
Proof.
  intros. apply readOnly_mutations. apply emits_executeCommands; reflexivity.
Qed.


Lemma configureInstance_readOnly :
  forall c addr key w, mutations (events (configureInstance E c addr key w)) = [].
Proof.
  intros. apply readOnly_mutations. revert w.
  change (emits readOnly (configureInstance E c addr key)).
  unfold configureInstance. emits_step; [emits_step|].
  apply emits_executeCommands; reflexivity.
Qed.

Lemma updateDocker_readOnly :
  forall c addr key w, mutations (events (updateDocker E c addr key w)) = [].
Proof.
  intros. apply readOnly_mutations. revert w.
  change (emits readOnly (updateDocker E c addr key)).
  unfold updateDocker. emits_step; [emits_step|].
  apply emits_executeCommands; reflexivity.
Qed.

Lemma waitForSSH_readOnly :
  forall c addr w, mutations (events (waitForSSH E c addr w)) = [].
Proof.
  intros. apply readOnly_mutations. revert w.
  change (emits readOnly (waitForSSH E c addr)).
  unfold waitForSSH. repeat emits_step.
Qed.

Lemma mutations_log :
  forall l format args (w : W), mutations (events (log l format args w)) = [].
Proof. reflexivity. Qed.

Lemma mutations_ret :
  forall A (a : A) (w : W), mutations (events (ret a w)) = [].
Proof. reflexivity. Qed.

Lemma mutations_deref :
  forall A (p : option A) (w : W), mutations (events (deref p w)) = [].
Proof. intros A [a|] w; reflexivity. Qed.

Lemma mutations_index0 :
  forall A (l : list A) (w : W), mutations (events (index0 l w)) = [].
Proof. intros A [|a l] w; reflexivity. Qed.

Lemma mutations_call :
  forall A (f : W -> A * W) ev w,
    mutations (events (call f ev w)) = filter mutating [kind (ev (fst (f w)))].
Proof. reflexivity. Qed.

Lemma mutations_disk :
  forall c w, mutations (events (disk E c w)) = [].
Proof. reflexivity. Qed.

Lemma mutations_instance :
  forall c w, mutations (events (instance E c w)) = [].
Proof. reflexivity. Qed.

#[local] Hint Rewrite mutations_log mutations_ret mutations_deref mutations_index0
  mutations_call mutations_disk mutations_instance createDisk_mutations
  deleteInstance_mutations deleteDisk_mutations waitForOp_readOnly
  waitForSSH_readOnly configureInstance_readOnly updateDocker_readOnly
  newComputeUtil_readOnly GetState_readOnly : muts.

(** *** Remove *)

(** The run of Remove once the handle is obtained and the state derived. *)
Lemma Remove_unfold :
  forall fuel drv (w : W) c s,
    result (newComputeUtil E drv w) = Done (Some c, None) ->
    result (GetState E drv (final (newComputeUtil E drv w))) = Done (s, None) ->
    Remove E fuel drv w
    = prepend (events (newComputeUtil E drv w))
        (prepend (events (GetState E drv (final (newComputeUtil E drv w))))
           (((if isRunning s then
                err <- deleteInstance E fuel c ;;
                match err with
                | Some e =>
                    log ErrorLevel "Error deleting instance: %v" [Error e]
                | None => ret tt
                end
              else ret tt) ;;;
             deleteDisk E fuel c)
              (final (GetState E drv (final (newComputeUtil E drv w)))))).
Proof.
  intros fuel drv w c s H1 H2. unfold Remove.
  rewrite (bind_done _ _ _ _ _ _ H1). cbn match.
  rewrite (bind_done _ _ _ _ _ _ H2). cbn match.
  reflexivity.
Qed.



(** *** Runs that return *)
Ltac invert_bind H :=
  let a := fresh "a" in
  let Ha := fresh "Ha" in
  let Hev := fresh "Hev" in
  apply bind_success in H; destruct H as (a & Ha & H & Hev);
  rewrite Hev; clear Hev Ha; rewrite mutations_app;
  match type of H with
  | result (_ ?w') = _ => generalize dependent w'; intros ? H
  end.

Ltac run H :=
  repeat first
    [ progress (autorewrite with muts; cbn [filter kind mutating app])
    | match goal with
      | |- context [mutations (events ((match ?x with _ => _ end) _))] =>
          destruct x
      end
    | match type of H with
      | result (bind _ _ _) = _ => invert_bind H
      | result ((match ?x with _ => _ end) _) = _ =>
          destruct x; try discriminate H
      end ].


Lemma createInstance_success :
  forall fuel c pub key mt (w : W),
    result (createInstance E fuel c pub key mt w) = Done None ->
    mutations (events (createInstance E fuel c pub key mt w))
      = [K_Instances_Insert; K_Instances_SetMetadata]
    \/ mutations (events (createInstance E fuel c pub key mt w))
       = [K_Disks_Insert; K_Instances_Insert; K_Instances_SetMetadata].
Proof.
  intros fuel c pub key mt w H. unfold createInstance in *.
  run H; try (cbn in H; congruence); auto.
Qed.

(** *** Every run of createInstance and of Restart *)

Lemma mutations_bind :
  forall A B (m : M W A) (k : A -> M W B) w,
    mutations (events (bind m k w))
    = (mutations (events (m w))
         ++ match result (m w) with
            | Done a => mutations (events (k a (final (m w))))
            | _ => []
            end)%list.
Proof.
  intros A B m k w. unfold bind.
  destruct (result (m w)); cbn [events]; rewrite ?mutations_app, ?app_nil_r;
    reflexivity.
Qed.

Ltac forward :=
  repeat first
    [ match goal with
      | |- context [events ((match ?x with _ => _ end) _)] => destruct x
      end
    | rewrite mutations_bind
    | progress (autorewrite with muts; cbn [filter kind mutating app])
    | match goal with
      | |- context [match result (?m ?w) with _ => _ end] =>
          let res := fresh "res" in
          let w' := fresh "w" in
          generalize (final (m w)); generalize (result (m w));
          intros res w'; destruct res as [?a| |]; cbv beta iota
      end ].

Lemma createInstance_mutations :
  forall fuel c pub key mt (w : W),
    In (mutations (events (createInstance E fuel c pub key mt w)))
      [ [];
        [K_Instances_Insert];
        [K_Instances_Insert; K_Instances_SetMetadata];
        [K_Disks_Insert];
        [K_Disks_Insert; K_Instances_Insert];
        [K_Disks_Insert; K_Instances_Insert; K_Instances_SetMetadata] ].
Proof.
  intros fuel c pub key mt w. unfold createInstance.
  forward; cbn [In]; tauto.
Qed.

(** *** Restart *)

(** C8.  No run of Restart issues a delete-disk call, and every run issues at
    most one delete-instance and, only after it, at most one instance-insert.
    A Restart that returns nil issued exactly one delete-instance followed by
    exactly one instance-insert (then the metadata-set of createInstance; a
    disk-insert comes between the two only when the disk lookup found no
    disk). *)
Theorem Restart_calls :
  forall fuel drv (w : W),
    ~ In K_Disks_Delete (mutations (events (Restart E fuel drv w)))
    /\ In (mutations (events (Restart E fuel drv w)))
         [ [];
           [K_Instances_Delete];
           [K_Instances_Delete; K_Instances_Insert];
           [K_Instances_Delete; K_Instances_Insert; K_Instances_SetMetadata];
           [K_Instances_Delete; K_Disks_Insert];
           [K_Instances_Delete; K_Disks_Insert; K_Instances_Insert];
           [K_Instances_Delete; K_Disks_Insert; K_Instances_Insert;
            K_Instances_SetMetadata] ]
    /\ (result (Restart E fuel drv w) = Done None ->
        mutations (events (Restart E fuel drv w))
          = [K_Instances_Delete; K_Instances_Insert; K_Instances_SetMetadata]
        \/ mutations (events (Restart E fuel drv w))
           = [K_Instances_Delete; K_Disks_Insert; K_Instances_Insert;
              K_Instances_SetMetadata]).
Proof.
  intros fuel drv w. split; [|split].
  - apply (mutations_In notDiskDelete); [|reflexivity].
    assert (Hem : emits notDiskDelete (Restart E fuel drv))
      by (unfold Restart; emits_auto).
    exact (Hem w).
  - unfold Restart. forward; try (cbn [In]; tauto).
    match goal with
    | |- context [createInstance E ?f ?c ?p ?k ?m ?w'] =>
        pose proof (createInstance_mutations f c p k m w') as Hc
    end.
    cbn [In] in Hc |- *.
    repeat (destruct Hc as [<- | Hc]; [tauto|]). contradiction.
  - intros H. unfold Restart in *. run H; try (cbn in H; congruence).
    destruct (createInstance_success _ _ _ _ _ _ H) as [-> | ->]; auto.
Qed.

(** *** Disk creation inside createInstance *)

(** C7.  createInstance looks the disk up first.  When the lookup returns a
    disk, no disk-insert is issued and the first call after the lookup is the
    instance-insert.  When it returns none, createDisk runs next from there,
    issuing the one disk-insert; the instance-insert follows only after
    createDisk returned nil, and nothing follows otherwise. *)
Theorem createInstance_disk_guard :
  forall fuel c pub key mt (w w1 : W) d e,
    Disks_Get E (project c) (zone c) (instanceName c ++ "-disk") w
      = ((d, e), w1) ->
    let r := createInstance E fuel c pub key mt w in
    let prelude :=
      [ Ev_Log InfoLevel "Creating instance." [];
        Ev_Disks_Get (project c) (zone c) (instanceName c ++ "-disk") (d, e) ]
    in
    (d <> None ->
     ~ In K_Disks_Insert (mutations (events r))
     /\ exists ro rest,
         events r
         = (prelude
              ++ Ev_Instances_Insert (project c) (zone c) (newInstance c mt) ro
              :: rest)%list)
    /\ (d = None ->
        let rd := createDisk E fuel c w1 in
        exists rest,
          events r = (prelude ++ events rd ++ rest)%list
          /\ mutations (events rd) = [K_Disks_Insert]
          /\ (result rd <> Done None -> rest = [])
          /\ (result rd = Done None ->
              exists ro rest',
                rest = Ev_Instances_Insert (project c) (zone c)
                         (newInstance c mt) ro :: rest')).
Proof.
  intros fuel c pub key mt w w1 d e Hd r prelude. subst r prelude.
  unfold createInstance, disk, diskName.
  rewrite log_bind, call_bind, Hd. cbn [fst snd]. cbv beta iota.
  split.
  - intros Hne. destruct d as [d|]; [clear Hne|congruence].
    rewrite ret_bind. cbv beta iota. rewrite call_bind.
    unfold prepend. cbn [events app]. split.
    + match goal with
      | |- ~ In _ (mutations (?a :: ?b :: ?i :: events (?K ?w'))) =>
          assert (Hem : emits notDiskInsert K) by emits_auto;
          apply (mutations_In notDiskInsert); [|reflexivity];
          cbn [forallb kind notDiskInsert andb]; exact (Hem w')
      end.
    + eexists. eexists. reflexivity.
  - intros ->. cbv zeta.
    destruct (result (createDisk E fuel c w1)) as [[err|]| |] eqn:Hrd.
    + rewrite (bind_done _ _ _ _ _ _ Hrd). cbv beta iota.
      unfold prepend. cbn [events ret app]. exists [].
      split; [reflexivity|]. split; [apply createDisk_mutations|].
      split; [reflexivity|]. intros H0. congruence.
    + rewrite (bind_done _ _ _ _ _ _ Hrd). cbv beta iota.
      rewrite call_bind. unfold prepend. cbn [events app].
      eexists. split; [reflexivity|]. split; [apply createDisk_mutations|].
      split; [congruence|]. intros _. eexists. eexists. reflexivity.
    + rewrite (bind_panicked _ _ _ _ _ _ Hrd). unfold prepend.
      cbn [events app]. exists []. rewrite app_nil_r.
      split; [reflexivity|]. split; [apply createDisk_mutations|].
      split; [reflexivity|]. intros H0. congruence.
    + rewrite (bind_polling _ _ _ _ _ Hrd). unfold prepend.
      cbn [events app]. exists []. rewrite app_nil_r.
      split; [reflexivity|]. split; [apply createDisk_mutations|].
      split; [reflexivity|]. intros H0. congruence.
Qed.

(** *** Locating the reachability wait in a run *)
Lemma peel_app :
  forall (evs L pre : list Event) x post,
    forallb (fun e => notWait (kind e)) evs = true ->
    kind x = K_WaitForTCP ->
    (evs ++ L = pre ++ x :: post)%list ->
    exists pre', L = (pre' ++ x :: post)%list.
Proof.
  induction evs as [|e evs IH]; intros L pre x post Hn Hx H.
  - exists pre. exact H.
  - cbn in Hn. apply andb_prop in Hn. destruct Hn as [He Hn].
    destruct pre as [|p pre]; cbn in H; injection H as H1 H2.
    + subst e. rewrite Hx in He. discriminate.
    + eapply IH; eauto.
Qed.

Lemma step_noWait :
  forall A B (m : M W A) (k : A -> M W B) w pre x post,
    emits notWait m ->
    kind x = K_WaitForTCP ->
    events (bind m k w) = (pre ++ x :: post)%list ->
    exists a w' pre',
      result (bind m k w) = result (k a w')
      /\ events (k a w') = (pre' ++ x :: post)%list.
Proof.
  intros A B m k w pre x post Hm Hx H. unfold bind in *.
  specialize (Hm w).
  destruct (result (m w)) as [a| |]; cbn [events result] in *.
  - destruct (peel_app _ _ _ _ _ Hm Hx H) as [pre' H'].
    exists a, (final (m w)), pre'. auto.
  - rewrite <- (app_nil_r (events (m w))) in H.
    destruct (peel_app _ _ _ _ _ Hm Hx H) as [pre' H'].
    destruct pre'; discriminate.
  - rewrite <- (app_nil_r (events (m w))) in H.
    destruct (peel_app _ _ _ _ _ Hm Hx H) as [pre' H'].
    destruct pre'; discriminate.
Qed.

Ltac head_step H :=
  let a := fresh "a" in
  let w' := fresh "w" in
  let pre' := fresh "pre" in
  let Hres := fresh "Hres" in
  apply step_noWait in H; [ | emits_auto | reflexivity ];
  destruct H as (a & w' & pre' & Hres & H); rewrite Hres; clear Hres;
  cbv beta in *.


Ltac dead H := exfalso; cbn in H; eapply app_cons_not_nil; exact H.

Ltac head H :=
  repeat first
    [ match type of H with
      | events ((match ?x with _ => _ end) _) = _ => destruct x; [try dead H ..]
      end
    | head_step H ].

Lemma hit :
  forall (a x' x : Event) (R pre post : list Event),
    notWait (kind a) = true ->
    forallb (fun e => notWait (kind e)) R = true ->
    kind x = K_WaitForTCP ->
    a :: x' :: R = (pre ++ x :: post)%list ->
    post = R.
Proof.
  intros a x' x R pre post Ha HR Hx H.
  destruct pre as [|p pre]; cbn in H; injection H as H1 H2.
  - subst a. rewrite Hx in Ha. discriminate.
  - destruct pre as [|q pre]; cbn in H2; injection H2 as H2 H3.
    + congruence.
    + rewrite <- (app_nil_r R) in H3.
      destruct (peel_app _ _ _ _ _ HR Hx H3) as [pre' H'].
      destruct pre'; discriminate.
Qed.

(** *** The reachability wait is not looked at *)


(** ** Further properties of the controller *)

(** *** Remote commands *)

(** X1.  executeCommands runs the commands in the order given, each against
    the same address, port 22, user and key, and stops at the first one that
    fails: it returns nil after running all of them, or the error of the
    failing command after running none of those behind it. *)
Theorem executeCommands_first_failure :
  forall c commands addr key (w : W),
    let r := executeCommands E c commands addr key w in
    let run cmd a := Ev_SSHRun addr 22 (userName c) key cmd a in
    (result r = Done None
     /\ filter isSSHRun (events r) = map (fun cmd => run cmd None) commands)
    \/ exists done cmd rest e,
        commands = (done ++ cmd :: rest)%list
        /\ result r = Done (Some e)
        /\ filter isSSHRun (events r)
           = (map (fun cmd => run cmd None) done ++ [run cmd (Some e)])%list.
Proof.
  intros c commands addr key. cbv zeta.
  induction commands as [|command rest IH]; intros w.
  - left. split; reflexivity.
  - cbn [executeCommands]. rewrite log_bind, call_bind.
    destruct (ssh_Run E addr 22 (userName c) key command w) as [[e|] w1];
      cbn [fst snd]; cbv beta iota.
    + right. exists [], command, rest, e. repeat split.
    + destruct (IH w1) as [[Hr Hf] | (done & cmd & rest' & e & Hc & Hr & Hf)].
      * left. unfold prepend. cbn [result events app filter isSSHRun map].
        split; [exact Hr | f_equal; exact Hf].
      * right. exists (command :: done), cmd, rest', e.
        unfold prepend. cbn [result events app filter isSSHRun map].
        split; [rewrite Hc; reflexivity|].
        split; [exact Hr | f_equal; exact Hf].
Qed.

(** *** The operation waiter *)

Lemma sleeps_app (a b : list Event) :
  sleeps (a ++ b) = sleeps a + sleeps b.
Proof. unfold sleeps. now rewrite filter_app, length_app. Qed.

(** One iteration of the loop of waitForOp, whatever the poll answers. *)
Lemma waitForOp_iteration :
  forall fuel c name (w : W),
    waitForOp E (S fuel) c name w
    = let poll := ZoneOperations_Get E (project c) (zone c) name w in
      let ev := Ev_ZoneOperations_Get (project c) (zone c) name (fst poll) in
      match fst poll with
      | (_, Some e) =>
          {| result := Done (Some e); events := [ev]; final := snd poll |}
      | (None, None) =>
          {| result :=
               Panicked "invalid memory address or nil pointer dereference";
             events := [ev]; final := snd poll |}
      | (Some op, None) =>
          let line :=
            Ev_Log DebugLevel "operation %q status: %s"
              [raw.Op_Name op; raw.Op_Status op] in
          if raw.Op_Status op =? "DONE" then
            match raw.Op_Error op with
            | None =>
                {| result := Done None; events := [ev; line];
                   final := snd poll |}
            | Some oe =>
                match raw.Errors oe with
                | first :: _ =>
                    {| result :=
                         Done (Some (errorString
                                       ("Operation error: " ++ fmt_v first)));
                       events := [ev; line]; final := snd poll |}
                | [] =>
                    {| result := Panicked "index out of range";
                       events := [ev; line]; final := snd poll |}
                end
            end
          else
            prepend [ev; line; Ev_Sleep 1]
              (waitForOp E fuel c name (time_Sleep E 1 (snd poll)))
      end.
Proof.
  intros fuel c name w. cbn [waitForOp]. rewrite call_bind. cbv zeta.
  destruct (ZoneOperations_Get E (project c) (zone c) name w)
    as [[op err] w1].
  cbn [fst snd]. cbv beta iota.
  destruct op as [op|], err as [e|]; try reflexivity.
  cbn [deref]. rewrite ret_bind, log_bind.
  destruct (raw.Op_Status op =? "DONE").
  - destruct (raw.Op_Error op) as [oe|]; [|reflexivity].
    destruct (raw.Errors oe); reflexivity.
  - rewrite call_bind. reflexivity.
Qed.

(** X2.  waitForOp makes no call but polls of the one operation it was given
    (in the project and zone of the ComputeUtil), one-second sleeps and its
    debug log lines.  It sleeps exactly once between two polls: when it
    returns or panics it has polled once more than it has slept, and it never
    polls more often than its bound. *)
Theorem waitForOp_polls_and_sleeps :
  forall fuel c name (w : W),
    let r := waitForOp E fuel c name w in
    Forall (fun ev =>
              (exists a,
                  ev = Ev_ZoneOperations_Get (project c) (zone c) name a)
              \/ ev = Ev_Sleep 1
              \/ exists args,
                  ev = Ev_Log DebugLevel "operation %q status: %s" args)
           (events r)
    /\ polls (events r) <= fuel
    /\ (result r = Polling ->
        polls (events r) = fuel /\ sleeps (events r) = fuel)
    /\ (result r <> Polling -> polls (events r) = S (sleeps (events r))).
Proof.
  intros fuel c name. cbv zeta.
  induction fuel as [|fuel IH]; intros w.
  - cbn. repeat split; auto. congruence.
  - rewrite waitForOp_iteration. cbv zeta.
    destruct (ZoneOperations_Get E (project c) (zone c) name w)
      as [[op err] w1].
    cbn [fst snd].
    assert (Hend : forall (res : outcome (option error)) evs,
               res <> Polling ->
               evs = [Ev_ZoneOperations_Get (project c) (zone c) name
                        (op, err)]
               \/ (exists o,
                      evs = [Ev_ZoneOperations_Get (project c) (zone c) name
                               (op, err);
                             Ev_Log DebugLevel "operation %q status: %s"
                               [raw.Op_Name o; raw.Op_Status o]]) ->
               Forall (fun ev =>
                         (exists a,
                             ev = Ev_ZoneOperations_Get (project c) (zone c)
                                    name a)
                         \/ ev = Ev_Sleep 1
                         \/ exists args,
                             ev = Ev_Log DebugLevel "operation %q status: %s"
                                    args) evs
               /\ polls evs <= S fuel
               /\ (res = Polling -> polls evs = S fuel /\ sleeps evs = S fuel)
               /\ (res <> Polling -> polls evs = S (sleeps evs))).
    { intros res evs Hres [-> | [o ->]]; cbn;
        (split;
         [repeat (apply Forall_cons;
                  [first [ left; eexists; reflexivity
                         | right; left; reflexivity
                         | right; right; eexists; reflexivity ]|]);
          apply Forall_nil|]);
        (split; [lia|]); (split; [intros; congruence|reflexivity]). }
    destruct op as [op|], err as [e|];
      try (apply Hend; [discriminate | left; reflexivity]).
    destruct (raw.Op_Status op =? "DONE").
    + destruct (raw.Op_Error op) as [oe|];
        [destruct (raw.Errors oe)|];
        (apply Hend; [discriminate | right; eexists; reflexivity]).
    + destruct (IH (time_Sleep E 1 w1)) as (Hall & Hle & Hp & Hn).
      unfold prepend. cbn [result events].
      rewrite polls_app, sleeps_app.
      change (polls [Ev_ZoneOperations_Get (project c) (zone c) name
                       (Some op, None);
                     Ev_Log DebugLevel "operation %q status: %s"
                       [raw.Op_Name op; raw.Op_Status op];
                     Ev_Sleep 1]) with 1.
      change (sleeps [Ev_ZoneOperations_Get (project c) (zone c) name
                        (Some op, None);
                      Ev_Log DebugLevel "operation %q status: %s"
                        [raw.Op_Name op; raw.Op_Status op];
                      Ev_Sleep 1]) with 1.
      split; [|split; [|split]].
      * apply Forall_app. split; [|exact Hall].
        repeat (apply Forall_cons;
                [first [ left; eexists; reflexivity
                       | right; left; reflexivity
                       | right; right; eexists; reflexivity ]|]).
        apply Forall_nil.
      * lia.
      * intros H. destruct (Hp H). lia.
      * intros H. specialize (Hn H). lia.
Qed.


(** X4.  Two answers make waitForOp panic after the poll, without a further
    call: a nil operation with a nil error, and an operation that is DONE
    with a non-nil Error whose list of errors is empty (the code indexes
    Errors[0]). *)
Theorem waitForOp_panics :
  forall fuel c name (w w1 : W),
    (ZoneOperations_Get E (project c) (zone c) name w = ((None, None), w1) ->
     result (waitForOp E (S fuel) c name w)
       = Panicked "invalid memory address or nil pointer dereference"
     /\ polls (events (waitForOp E (S fuel) c name w)) = 1
     /\ final (waitForOp E (S fuel) c name w) = w1)
    /\ (forall op,
           ZoneOperations_Get E (project c) (zone c) name w
             = ((Some op, None), w1) ->
           raw.Op_Status op = "DONE" ->
           raw.Op_Error op = Some {| raw.Errors := [] |} ->
           result (waitForOp E (S fuel) c name w)
             = Panicked "index out of range"
           /\ polls (events (waitForOp E (S fuel) c name w)) = 1
           /\ final (waitForOp E (S fuel) c name w) = w1).
Proof.
  intros fuel c name w w1. split.
  - intros H. rewrite waitForOp_iteration, H. cbn. auto.
  - intros op H Hst Herr. rewrite waitForOp_iteration, H. cbn.
    rewrite Hst, Herr. cbn. auto.
Qed.

(** *** The handle *)

Lemma newComputeUtil_ok :
  forall drv (w w1 : W),
    newGCEService E (storePath drv) w = (None, w1) ->
    newComputeUtil E drv w
    = {| result := Done (Some (utilOf drv), None);
         events := [Ev_newGCEService (storePath drv) None];
         final := w1 |}.
Proof.
  intros drv w w1 H. unfold newComputeUtil. rewrite call_bind, H.
  reflexivity.
Qed.

Lemma newComputeUtil_failed :
  forall drv (w w1 : W) e,
    newGCEService E (storePath drv) w = (Some e, w1) ->
    newComputeUtil E drv w
    = {| result := Done (None, Some e);
         events := [Ev_newGCEService (storePath drv) (Some e)];
         final := w1 |}.
Proof.
  intros drv w w1 e H. unfold newComputeUtil. rewrite call_bind, H.
  reflexivity.
Qed.

(** newComputeUtil returns, and returns a ComputeUtil exactly when it
    returns no error. *)
Lemma newComputeUtil_cases :
  forall drv (w : W),
    (result (newComputeUtil E drv w) = Done (Some (utilOf drv), None))
    \/ exists e, result (newComputeUtil E drv w) = Done (None, Some e).
Proof.
  intros drv w.
  destruct (newGCEService E (storePath drv) w) as [[e|] w1] eqn:H.
  - right. exists e. now rewrite (newComputeUtil_failed _ _ _ _ H).
  - left. now rewrite (newComputeUtil_ok _ _ _ H).
Qed.

(** *** Create on a host without instance *)

(** X5.  Create treats a nil instance as absence whatever error came with
    it: it then generates the SSH key before any remote change.  When key
    generation fails Create returns that error and no mutating call was
    made; otherwise it continues as createInstance with the driver's key
    paths and machine type. *)
Theorem Create_generates_key_first :
  forall fuel drv (w w1 w2 w3 : W) e ke,
    newGCEService E (storePath drv) w = (None, w1) ->
    Instances_Get E (Project drv) (Zone drv) (InstanceName drv) w1
      = ((None, e), w2) ->
    ssh_GenerateSSHKey E (sshKeyPath drv) w2 = (ke, w3) ->
    let head :=
      [ Ev_newGCEService (storePath drv) None;
        Ev_Log InfoLevel "Creating GCE host..." [];
        Ev_Instances_Get (Project drv) (Zone drv) (InstanceName drv)
          (None, e);
        Ev_Log InfoLevel "Generating SSH Key" [];
        Ev_GenerateSSHKey (sshKeyPath drv) ke ] in
    match ke with
    | Some kerr =>
        Create E fuel drv w
        = {| result := Done (Some kerr); events := head; final := w3 |}
    | None =>
        Create E fuel drv w
        = prepend head
            (createInstance E fuel (utilOf drv) (publicSSHKeyPath drv)
               (sshKeyPath drv) (MachineType drv) w3)
    end.
Proof.
  intros fuel drv w w1 w2 w3 e ke Hs Hi Hk head. subst head.
  unfold Create.
  rewrite (bind_done _ _ _ _ _ _
             (f_equal result (newComputeUtil_ok _ _ _ Hs))).
  rewrite (newComputeUtil_ok _ _ _ Hs). cbv beta iota. cbn [final events].
  rewrite log_bind. cbn [deref]. rewrite ret_bind. unfold instance.
  rewrite call_bind. cbn [utilOf project zone instanceName].
  rewrite Hi. cbn [fst snd]. cbv beta iota.
  rewrite log_bind, call_bind, Hk. cbn [fst snd]. cbv beta iota.
  destruct ke as [kerr|]; unfold prepend; cbn [ret result events final app];
    reflexivity.
Qed.

(** *** The address of the instance *)

(** The run of GetIP once the handle is obtained. *)
Lemma GetIP_result :
  forall drv (w w1 w2 : W) o e,
    newGCEService E (storePath drv) w = (None, w1) ->
    Instances_Get E (Project drv) (Zone drv) (InstanceName drv) w1
      = ((o, e), w2) ->
    final (GetIP E drv w) = w2
    /\ result (GetIP E drv w)
       = match e, o with
         | Some err, _ => Done ("", Some err)
         | None, None =>
             Panicked "invalid memory address or nil pointer dereference"
         | None, Some inst =>
             match raw.NetworkInterfaces inst with
             | [] => Panicked "index out of range"
             | nic :: _ =>
                 match raw.AccessConfigs nic with
                 | [] => Panicked "index out of range"
                 | ac :: _ => Done (raw.NatIP ac, None)
                 end
             end
         end.
Proof.
  intros drv w w1 w2 o e Hs Hi. unfold GetIP.
  rewrite (bind_done _ _ _ _ _ _
             (f_equal result (newComputeUtil_ok _ _ _ Hs))).
  rewrite (newComputeUtil_ok _ _ _ Hs). cbv beta iota. cbn [final events].
  cbn [deref]. rewrite ret_bind. unfold ip. rewrite call_bind.
  cbn [utilOf project zone instanceName]. rewrite Hi. cbn [fst snd].
  cbv beta iota.
  destruct e as [err|]; [cbn; auto|].
  destruct o as [inst|]; [|cbn; auto].
  cbn [deref]. rewrite ret_bind.
  destruct (raw.NetworkInterfaces inst) as [|nic nics]; [cbn; auto|].
  cbn [index0]. rewrite ret_bind.
  destruct (raw.AccessConfigs nic) as [|ac acs]; cbn; auto.
Qed.

Lemma GetIP_readOnly :
  forall drv (w : W), mutations (events (GetIP E drv w)) = [].
Proof.
  intros drv w. apply readOnly_mutations.
  assert (Hem : emits readOnly (GetIP E drv))
    by (unfold GetIP, ip; emits_auto).
  exact (Hem w).
Qed.

(** X6.  GetIP makes no mutating call.  With the handle obtained it returns
    the NAT address of the first access configuration of the first network
    interface of the instance; it returns the empty address with the error
    of a failed lookup, and it panics on a nil instance without error and on
    an instance without network interface or without access
    configuration. *)
Theorem GetIP_address :
  forall drv (w w1 w2 : W) o e,
    newGCEService E (storePath drv) w = (None, w1) ->
    Instances_Get E (Project drv) (Zone drv) (InstanceName drv) w1
      = ((o, e), w2) ->
    mutations (events (GetIP E drv w)) = []
    /\ final (GetIP E drv w) = w2
    /\ result (GetIP E drv w)
       = match e, o with
         | Some err, _ => Done ("", Some err)
         | None, None =>
             Panicked "invalid memory address or nil pointer dereference"
         | None, Some inst =>
             match raw.NetworkInterfaces inst with
             | [] => Panicked "index out of range"
             | nic :: _ =>
                 match raw.AccessConfigs nic with
                 | [] => Panicked "index out of range"
                 | ac :: _ => Done (raw.NatIP ac, None)
                 end
             end
         end.
Proof.
  intros drv w w1 w2 o e Hs Hi.
  split; [apply GetIP_readOnly|]. exact (GetIP_result _ _ _ _ _ _ Hs Hi).
Qed.

(** Whenever GetIP returns an error, the address it returns is empty. *)
Lemma GetIP_error_empty :
  forall drv (w : W) a e,
    result (GetIP E drv w) = Done (a, Some e) -> a = "".
Proof.
  intros drv w a e H. unfold GetIP in H.
  apply bind_success in H. destruct H as ([c0 err] & _ & H & _).
  destruct err as [e0|]; [cbn in H; congruence|].
  apply bind_success in H. destruct H as (c1 & _ & H & _).
  unfold ip in H.
  apply bind_success in H. destruct H as ([o e1] & _ & H & _).
  destruct e1 as [e1|]; [cbn in H; congruence|].
  repeat (apply bind_success in H; destruct H as (? & _ & H & _)).
  cbn in H. congruence.
Qed.

(** X7.  GetURL makes the calls of GetIP and no other.  With the handle
    obtained and an instance returned, it returns "tcp://<address>:2375" for
    the NAT address of the instance's first access configuration; when the
    lookup fails it returns the empty URL with the error of the lookup. *)
Theorem GetURL_of_address :
  forall drv (w w1 w2 : W),
    newGCEService E (storePath drv) w = (None, w1) ->
    events (GetURL E drv w) = events (GetIP E drv w)
    /\ (forall inst nic nics ac acs,
           Instances_Get E (Project drv) (Zone drv) (InstanceName drv) w1
             = ((Some inst, None), w2) ->
           raw.NetworkInterfaces inst = nic :: nics ->
           raw.AccessConfigs nic = ac :: acs ->
           result (GetURL E drv w)
             = Done ("tcp://" ++ raw.NatIP ac ++ ":2375", None))
    /\ (forall o e,
           Instances_Get E (Project drv) (Zone drv) (InstanceName drv) w1
             = ((o, Some e), w2) ->
           result (GetURL E drv w) = Done ("", Some e)).
Proof.
  intros drv w w1 w2 Hs.
  assert (Hev : events (GetURL E drv w) = events (GetIP E drv w)
                /\ result (GetURL E drv w)
                   = match result (GetIP E drv w) with
                     | Done (addr, None) =>
                         Done ("tcp://" ++ addr ++ ":2375", None)
                     | Done (_, Some e) => Done ("", Some e)
                     | Panicked msg => Panicked msg
                     | Polling => Polling
                     end).
  { unfold GetURL, bind.
    destruct (result (GetIP E drv w)) as [[addr [e|]]| |];
      cbn [result events final ret]; rewrite ?app_nil_r; auto. }
  destruct Hev as [Hev Hres]. split; [exact Hev|]. split.
  - intros inst nic nics ac acs Hi Hn Ha.
    destruct (GetIP_result _ _ _ _ _ _ Hs Hi) as [_ Hg].
    rewrite Hn, Ha in Hg. rewrite Hres, Hg. reflexivity.
  - intros o e Hi.
    destruct (GetIP_result _ _ _ _ _ _ Hs Hi) as [_ Hg].
    rewrite Hres, Hg. reflexivity.
Qed.

(** X8.  GetSSHCommand never returns an error: the error of GetIP is
    dropped.  The command it builds targets port 22 with the driver's user
    and private key and the arguments given; its address is the one GetIP
    returned, which is empty whenever GetIP failed. *)
Theorem GetSSHCommand_never_fails :
  forall drv args (w : W) x,
    result (GetSSHCommand E drv args w) = Done x ->
    snd x = None
    /\ cmd_port (fst x) = 22%Z
    /\ cmd_user (fst x) = UserName drv
    /\ cmd_keyPath (fst x) = sshKeyPath drv
    /\ cmd_args (fst x) = args
    /\ (exists err, result (GetIP E drv w) = Done (cmd_ip (fst x), err))
    /\ ((exists a e, result (GetIP E drv w) = Done (a, Some e)) ->
        cmd_ip (fst x) = "").
Proof.
  intros drv args w x H. unfold GetSSHCommand in H.
  apply bind_success in H. destruct H as ([a err] & Ha & H & _).
  cbn in H. injection H as <-. cbn [fst snd cmd_port cmd_user cmd_keyPath
                                      cmd_args cmd_ip].
  repeat split; eauto.
  intros (a' & e & Hg). rewrite Hg in Ha. injection Ha as -> <-.
  exact (GetIP_error_empty _ _ _ _ Hg).
Qed.

(** *** Upgrade *)

(** X9.  Upgrade makes no mutating call.  It obtains the handle, then the
    address through GetIP (which obtains a handle of its own), and runs
    updateDocker against that address with the driver's private key: with
    both steps passed, its calls are theirs followed by those of
    updateDocker, and it returns what updateDocker returns. *)
Theorem Upgrade_runs_updateDocker :
  forall drv (w : W),
    mutations (events (Upgrade E drv w)) = []
    /\ (forall c addr,
           let r1 := newComputeUtil E drv w in
           let g := GetIP E drv (final r1) in
           let u := updateDocker E c addr (sshKeyPath drv) (final g) in
           result r1 = Done (Some c, None) ->
           result g = Done (addr, None) ->
           result (Upgrade E drv w) = result u
           /\ events (Upgrade E drv w)
              = (events r1 ++ events g ++ events u)%list
           /\ final (Upgrade E drv w) = final u).
Proof.
  intros drv w. split.
  - apply readOnly_mutations.
    assert (Hem : emits readOnly (Upgrade E drv))
      by (unfold Upgrade, GetIP, ip; emits_auto).
    exact (Hem w).
  - intros c addr r1 g u H1 Hg. subst r1 g u. unfold Upgrade.
    rewrite (bind_done _ _ _ _ _ _ H1). cbv beta iota.
    rewrite (bind_done _ _ _ _ _ _ Hg). cbv beta iota.
    cbn [deref]. rewrite ret_bind. unfold prepend, bind.
    cbn [result events final app].
    destruct (result (updateDocker E c addr (sshKeyPath drv)
                        (final (GetIP E drv
                                  (final (newComputeUtil E drv w))))))
      as [[e|]| |]; cbn [result events final ret];
      rewrite ?app_nil_r; auto.
Qed.

(** *** Configuration from the flags *)

(** X10.  SetConfigFromFlags never copies the user-name flag into the
    driver: with a non-empty flag the driver keeps the user name it had (and
    the call fails when that is empty); with an empty flag the name is read
    from USERNAME on windows and from USER elsewhere.  It succeeds exactly
    when the resulting user name and the project flag are non-empty; only
    then is the project set, while instance name, zone and machine type are
    overwritten even when it fails. *)
Theorem SetConfigFromFlags_outcome :
  forall GOOS Getenv drv flags,
    let r := SetConfigFromFlags GOOS Getenv drv flags in
    (flag_UserName flags <> "" -> UserName (fst r) = UserName drv)
    /\ (flag_UserName flags <> "" -> UserName drv = "" ->
        snd r = Some (errorString
                        "Unable to determine the current username."))
    /\ (flag_UserName flags = "" ->
        UserName (fst r)
        = Getenv (if GOOS =? "windows" then "USERNAME" else "USER"))
    /\ (snd r = None <->
        UserName (fst r) <> "" /\ flag_Project flags <> "")
    /\ (snd r = None -> Project (fst r) = flag_Project flags)
    /\ (snd r <> None -> Project (fst r) = Project drv)
    /\ InstanceName (fst r) = flag_InstanceName flags
    /\ Zone (fst r) = flag_Zone flags
    /\ MachineType (fst r) = flag_MachineType flags
    /\ storePath (fst r) = storePath drv
    /\ sshKeyPath (fst r) = sshKeyPath drv
    /\ publicSSHKeyPath (fst r) = publicSSHKeyPath drv.
Proof.
  intros GOOS Getenv drv flags. cbv zeta. unfold SetConfigFromFlags.
  destruct (String.eqb_spec (flag_UserName flags) "") as [Hu|Hu];
    [destruct (GOOS =? "windows")|];
    cbn [UserName with_UserName];
    match goal with
    | |- context [if ?u =? "" then _ else _] =>
        destruct (String.eqb_spec u "") as [Hn|Hn]
    end;
    try (destruct (String.eqb_spec (flag_Project flags) "") as [Hp|Hp]);
    cbn; repeat split; intros; try congruence; try tauto;
    try (destruct H; congruence).
Qed.

(** X20.  On a driver fresh from NewDriver, whose user name is empty,
    SetConfigFromFlags fails whenever the user-name flag is given: the flag
    is never copied, so the call reports that the user name could not be
    determined.  It succeeds exactly when that flag is empty, the
    environment variable (USERNAME on windows, USER elsewhere) and the
    project flag are not; the driver then holds the flags, the user name of
    the environment and the two key paths under the store path. *)
Theorem username_flag_fails_on_new_driver :
  forall Join GOOS Getenv store flags,
    let user := Getenv (if GOOS =? "windows" then "USERNAME" else "USER") in
    let r := SetConfigFromFlags GOOS Getenv (fst (NewDriver Join store))
               flags in
    snd (NewDriver Join store) = None
    /\ (flag_UserName flags <> "" ->
        snd r = Some (errorString
                        "Unable to determine the current username."))
    /\ (snd r = None <->
        flag_UserName flags = "" /\ user <> "" /\ flag_Project flags <> "")
    /\ (snd r = None ->
        fst r = {| InstanceName := flag_InstanceName flags;
                   Zone := flag_Zone flags;
                   MachineType := flag_MachineType flags;
                   storePath := store;
                   UserName := user;
                   Project := flag_Project flags;
                   sshKeyPath := Join store "id_rsa";
                   publicSSHKeyPath := Join store "id_rsa.pub" |}).
Proof.
  intros Join GOOS Getenv store flags. cbv zeta.
  unfold SetConfigFromFlags, NewDriver. cbn [fst snd].
  destruct (String.eqb_spec (flag_UserName flags) "") as [Hu|Hu].
  - destruct (GOOS =? "windows");
      cbn [UserName with_UserName];
      match goal with
      | |- context [if ?u =? "" then _ else _] =>
          destruct (String.eqb_spec u "") as [Hn|Hn]
      end;
      try (destruct (String.eqb_spec (flag_Project flags) "") as [Hp|Hp]);
      cbn; repeat split; intros; try congruence; try tauto;
      try (destruct H as (_ & H1 & H2); congruence).
  - cbn. repeat split; intros; try congruence.
    destruct H as [H _]. congruence.
Qed.

(** *** Stop, Kill and Remove *)

(** X11.  Stop never makes a disk call of any kind, nor an insert: every
    call it makes is the handle factory, the instance delete, a poll, a
    sleep or a log line, and it issues the instance delete at most once.
    Kill is Stop. *)
Theorem Stop_touches_the_instance_only :
  forall fuel drv (w : W),
    forallb (fun e => stopKinds (kind e)) (events (Stop E fuel drv w)) = true
    /\ In (mutations (events (Stop E fuel drv w))) [[]; [K_Instances_Delete]]
    /\ Kill E fuel drv w = Stop E fuel drv w.
Proof.
  intros fuel drv w. split; [|split].
  - assert (Hem : emits stopKinds (Stop E fuel drv))
      by (unfold Stop; emits_auto).
    exact (Hem w).
  - unfold Stop. forward; cbn [In]; tauto.
  - reflexivity.
Qed.

(** X12.  Remove deletes the disk in every derived state other than Running
    too, None and Starting included, without looking at what exists: its
    only mutating call is then the disk delete, it returns what deleteDisk
    returns, and an error answered to the delete call (as for a disk that
    does not exist) is returned to the caller. *)
Theorem Remove_in_other_states :
  forall fuel drv (w : W) c s,
    let r1 := newComputeUtil E drv w in
    let r2 := GetState E drv (final r1) in
    let d := deleteDisk E fuel c (final r2) in
    result r1 = Done (Some c, None) ->
    result r2 = Done (s, None) ->
    s <> state.Running ->
    result (Remove E fuel drv w) = result d
    /\ events (Remove E fuel drv w) = (events r1 ++ events r2 ++ events d)%list
    /\ mutations (events (Remove E fuel drv w)) = [K_Disks_Delete]
    /\ (forall o e w',
           Disks_Delete E (project c) (zone c) (instanceName c ++ "-disk")
             (final r2) = ((o, Some e), w') ->
           result (Remove E fuel drv w) = Done (Some e)).
Proof.
  intros fuel drv w c s r1 r2 d H1 H2 Hs. subst r1 r2 d.
  rewrite (Remove_unfold _ _ _ _ _ H1 H2).
  assert (Hrun : isRunning s = false)
    by (destruct s; try reflexivity; exfalso; apply Hs; reflexivity).
  rewrite Hrun. rewrite ret_bind. unfold prepend.
  cbn [result events final app].
  split; [reflexivity|]. split; [reflexivity|]. split.
  - rewrite !mutations_app. autorewrite with muts. reflexivity.
  - intros o e w' Hd. unfold deleteDisk, diskName.
    rewrite log_bind, call_bind, Hd. reflexivity.
Qed.

(** *** Every run of createInstance *)

(** X13.  No run of createInstance obtains a handle, generates a key or
    deletes anything, and its mutating calls always come in the order
    disk-insert (at most once), instance-insert, metadata-set, a later one
    never without the earlier; a run that returns nil has issued the
    instance-insert and the metadata-set. *)
Theorem createInstance_call_order :
  forall fuel c pub key mt (w : W),
    let r := createInstance E fuel c pub key mt w in
    forallb (fun e => createKinds (kind e)) (events r) = true
    /\ In (mutations (events r))
         [ [];
           [K_Instances_Insert];
           [K_Instances_Insert; K_Instances_SetMetadata];
           [K_Disks_Insert];
           [K_Disks_Insert; K_Instances_Insert];
           [K_Disks_Insert; K_Instances_Insert; K_Instances_SetMetadata] ]
    /\ (result r = Done None ->
        mutations (events r) = [K_Instances_Insert; K_Instances_SetMetadata]
        \/ mutations (events r)
           = [K_Disks_Insert; K_Instances_Insert; K_Instances_SetMetadata]).
Proof.
  intros fuel c pub key mt w. cbv zeta. split; [|split].
  - assert (Hem : emits createKinds (createInstance E fuel c pub key mt))
      by emits_auto.
    exact (Hem w).
  - apply createInstance_mutations.
  - apply createInstance_success.
Qed.

(** *** The clean-up of the test *)

(** X14.  The clean-up helpers of the test delete a resource only after a
    lookup that returned it: with a nil answer the helper stops after the
    lookup.  cleanup deletes the instance before the disk, each at most
    once. *)
Theorem cleanup_is_guarded :
  forall fuel p z c (w : W),
    (forall e w1,
        Disks_Get E p z "test-instance-disk" w = ((None, e), w1) ->
        events (cleanupDisk E fuel p z c w)
        = [ Ev_Log InfoLevel "Cleaning up disk." [];
            Ev_Disks_Get p z "test-instance-disk" (None, e) ])
    /\ (forall e w1,
           Instances_Get E p z "test-instance" w = ((None, e), w1) ->
           events (cleanupInstance E fuel p z c w)
           = [ Ev_Log InfoLevel "Cleaning up instance." [];
               Ev_Instances_Get p z "test-instance" (None, e) ])
    /\ In (mutations (events (cleanupDisk E fuel p z c w)))
         [[]; [K_Disks_Delete]]
    /\ In (mutations (events (cleanupInstance E fuel p z c w)))
         [[]; [K_Instances_Delete]]
    /\ In (mutations (events (cleanup E fuel p z c w)))
         [ []; [K_Instances_Delete]; [K_Disks_Delete];
           [K_Instances_Delete; K_Disks_Delete] ].
Proof.
  intros fuel p z c w. split; [|split; [|split; [|split]]].
  - intros e w1 H. unfold cleanupDisk. rewrite log_bind, call_bind, H.
    reflexivity.
  - intros e w1 H. unfold cleanupInstance. rewrite log_bind, call_bind, H.
    reflexivity.
  - unfold cleanupDisk. forward; cbn [In]; tauto.
  - unfold cleanupInstance. forward; cbn [In]; tauto.
  - unfold cleanup, cleanupInstance, cleanupDisk. forward; cbn [In]; tauto.
Qed.

(** *** What the calls of a run name *)

Lemma always_ret : forall A P (a : A), always P (@ret W A a).
Proof. intros A P a w. constructor. Qed.

Lemma always_panic : forall A P msg, always P (@panic W A msg).
Proof. intros A P msg w. constructor. Qed.

Lemma always_polling : forall A P, always P (@polling W A).
Proof. intros A P w. constructor. Qed.

Lemma always_deref : forall A P (p : option A), always P (@deref W A p).
Proof. intros A P [a|] w; constructor. Qed.

Lemma always_index0 : forall A P (l : list A), always P (@index0 W A l).
Proof. intros A P [|a l] w; constructor. Qed.

Lemma always_call :
  forall A (P : Event -> Prop) (f : W -> A * W) ev,
    (forall a, P (ev a)) -> always P (call f ev).
Proof. intros A P f ev H w. cbn. constructor; [apply H|constructor]. Qed.

Lemma always_log :
  forall (P : Event -> Prop) l format args,
    P (Ev_Log l format args) -> always P (@log W l format args).
Proof. intros P l format args H w. cbn. constructor; [exact H|constructor]. Qed.

(** The continuation need only be considered for the values the first part
    can return. *)
Lemma always_bind :
  forall A B P (m : M W A) (k : A -> M W B),
    always P m ->
    (forall w a, result (m w) = Done a -> always P (k a)) ->
    always P (bind m k).
Proof.
  intros A B P m k Hm Hk w. unfold bind.
  destruct (result (m w)) as [a| |] eqn:Hr; cbn [events]; try apply Hm.
  apply Forall_app. split; [apply Hm|]. exact (Hk w a Hr _).
Qed.

Ltac scoped_event :=
  intros; cbn;
  repeat first [ reflexivity | exact I | split | eexists ].

Ltac always_step :=
  match goal with
  | |- always _ (bind (ret _) _) =>
      apply always_bind;
      [ apply always_ret
      | let H := fresh "H" in intros ? ? H; cbn in H; injection H as <- ]
  | |- always _ (bind _ _) => apply always_bind; [|intros ? ? ?]
  | |- always _ (ret _) => apply always_ret
  | |- always _ (panic _) => apply always_panic
  | |- always _ polling => apply always_polling
  | |- always _ (deref _) => apply always_deref
  | |- always _ (index0 _) => apply always_index0
  | |- always _ (call _ _) => apply always_call; scoped_event
  | |- always _ (log _ _ _) => apply always_log; scoped_event
  | |- always _ (match ?x with _ => _ end) => destruct x
  end.

Lemma always_waitForOp :
  forall n user fuel c name,
    always (scoped (project c) (zone c) n user) (waitForOp E fuel c name).
Proof.
  intros n user fuel c name.
  induction fuel as [|fuel IH]; cbn [waitForOp].
  - apply always_polling.
  - repeat first [ exact IH | always_step ].
Qed.

Lemma always_executeCommands :
  forall p z n c commands addr key,
    always (scoped p z n (userName c)) (executeCommands E c commands addr key).
Proof.
  intros p z n c commands addr key.
  induction commands as [|command rest IH]; cbn [executeCommands].
  - apply always_ret.
  - repeat first [ exact IH | always_step ].
Qed.

Ltac always_auto :=
  unfold createInstance, createDisk, deleteDisk, deleteInstance,
    configureInstance, updateDocker, waitForSSH, disk, instance, ip, diskName;
  cbv zeta;
  repeat first
    [ apply (always_waitForOp _ _ _ (utilOf _))
    | apply (always_executeCommands _ _ _ (utilOf _))
    | always_step ].

(** After the handle, a verb goes on with the ComputeUtil of its driver. *)
Ltac with_handle drv :=
  apply always_bind;
  [ unfold newComputeUtil; repeat always_step
  | let w := fresh "w" in
    let a := fresh "a" in
    let Ha := fresh "Ha" in
    intros w a Ha;
    destruct (newComputeUtil_cases drv w) as [Hc | [? Hc]];
    rewrite Hc in Ha; injection Ha as <-; cbv beta iota; cbn [deref] ].

Lemma GetState_in_scope :
  forall drv,
    always (scoped (Project drv) (Zone drv) (InstanceName drv) (UserName drv))
      (GetState E drv).
Proof. intros. unfold GetState. with_handle drv; always_auto. Qed.

Lemma GetIP_in_scope :
  forall drv,
    always (scoped (Project drv) (Zone drv) (InstanceName drv) (UserName drv))
      (GetIP E drv).
Proof. intros. unfold GetIP. with_handle drv; always_auto. Qed.

(** X15.  Every remote call a verb of the driver makes names the driver's
    project and zone and either its instance or the disk called
    <instance>-disk (created from the fixed image); polls stay in that
    project and zone; the instance it inserts is named after the driver and
    boots from that disk, which is not deleted with it; the metadata it sets
    is the single item sshKeys, for the driver's user; remote commands go to
    port 22 as that user. *)
Theorem verbs_stay_in_scope :
  forall fuel drv (w : W),
    let P :=
      scoped (Project drv) (Zone drv) (InstanceName drv) (UserName drv) in
    Forall P (events (Create E fuel drv w))
    /\ Forall P (events (Start E fuel drv w))
    /\ Forall P (events (Stop E fuel drv w))
    /\ Forall P (events (Restart E fuel drv w))
    /\ Forall P (events (Remove E fuel drv w))
    /\ Forall P (events (GetState E drv w))
    /\ Forall P (events (GetIP E drv w))
    /\ Forall P (events (Upgrade E drv w)).
Proof.
  intros fuel drv w P. subst P.
  repeat match goal with |- _ /\ _ => split end;
    match goal with
    | |- Forall ?P (events (?m w)) =>
        assert (Hal : always P m); [|exact (Hal w)]
    end.
  - unfold Create. with_handle drv; always_auto.
  - unfold Start. with_handle drv; always_auto.
  - unfold Stop. with_handle drv; always_auto.
  - unfold Restart. with_handle drv; always_auto.
  - unfold Remove. with_handle drv; [|always_auto].
    apply always_bind; [apply GetState_in_scope|].
    intros; always_auto.
  - apply GetState_in_scope.
  - apply GetIP_in_scope.
  - unfold Upgrade. with_handle drv; [|always_auto].
    apply always_bind; [apply GetIP_in_scope|].
    intros; always_auto.
Qed.

(** *** The metadata sent with the key *)

Lemma peel_kind :
  forall (P : Kind -> bool) (evs L pre : list Event) x post,
    forallb (fun e => P (kind e)) evs = true ->
    P (kind x) = false ->
    (evs ++ L = pre ++ x :: post)%list ->
    exists pre', pre = (evs ++ pre')%list /\ L = (pre' ++ x :: post)%list.
Proof.
  induction evs as [|e evs IH]; intros L pre x post Hn Hx H.
  - exists pre. auto.
  - cbn in Hn. apply andb_prop in Hn. destruct Hn as [He Hn].
    destruct pre as [|q pre]; cbn in H; injection H as H1 H2.
    + subst e. congruence.
    + destruct (IH _ _ _ _ Hn Hx H2) as (pre' & -> & HL).
      exists pre'. subst q. auto.
Qed.

Lemma locate_step :
  forall (P : Kind -> bool) A B (m : M W A) (k : A -> M W B) w pre x post,
    emits P m ->
    P (kind x) = false ->
    events (bind m k w) = (pre ++ x :: post)%list ->
    exists a w' pre',
      result (m w) = Done a
      /\ pre = (events (m w) ++ pre')%list
      /\ events (k a w') = (pre' ++ x :: post)%list.
Proof.
  intros P A B m k w pre x post Hm Hx H. unfold bind in H.
  specialize (Hm w).
  destruct (result (m w)) as [a| |]; cbn [events] in H.
  - destruct (peel_kind _ _ _ _ _ _ Hm Hx H) as (pre' & Hp & HL).
    exists a, (final (m w)), pre'. auto.
  - rewrite <- (app_nil_r (events (m w))) in H.
    destruct (peel_kind _ _ _ _ _ _ Hm Hx H) as (pre' & _ & HL).
    destruct pre'; discriminate.
  - rewrite <- (app_nil_r (events (m w))) in H.
    destruct (peel_kind _ _ _ _ _ _ Hm Hx H) as (pre' & _ & HL).
    destruct pre'; discriminate.
Qed.

Lemma no_such_kind :
  forall (P : Kind -> bool) (evs pre : list Event) x post,
    forallb (fun e => P (kind e)) evs = true ->
    P (kind x) = false ->
    evs = (pre ++ x :: post)%list -> False.
Proof.
  intros P evs pre x post Hn Hx H.
  rewrite <- (app_nil_r evs) in H.
  destruct (peel_kind _ _ _ _ _ _ Hn Hx H) as (pre' & _ & HL).
  destruct pre'; discriminate.
Qed.

Ltac locate H a pre' Ha :=
  let w' := fresh "w" in
  apply (locate_step notSetMetadata) in H;
  [ | solve [emits_auto] | reflexivity ];
  destruct H as (a & w' & pre' & Ha & -> & H); cbv beta in H.

(** X16.  The metadata createInstance sets comes from what it has just
    read: before every metadata-set of a run there is the instance lookup
    that returned the instance whose fingerprint the call carries, and the
    successful read of the public key file whose content is the value of the
    single sshKeys item, after the user name and a colon and before a
    newline. *)
Theorem createInstance_sends_fetched_fingerprint :
  forall fuel c pub key mt (w : W) pre p z n md ro post,
    events (createInstance E fuel c pub key mt w)
      = (pre ++ Ev_Instances_SetMetadata p z n md ro :: post)%list ->
    exists inst md0 sshKey,
      In (Ev_Instances_Get (project c) (zone c) (instanceName c)
            (Some inst, None)) pre
      /\ In (Ev_ReadFile pub (sshKey, None)) pre
      /\ raw.Metadata_ inst = Some md0
      /\ md = {| raw.Fingerprint := raw.Fingerprint md0;
                 raw.Items :=
                   [ {| raw.Key := "sshKeys";
                        raw.Value := userName c ++ ":" ++ sshKey
                                       ++ String (Ascii.ascii_of_nat 10)
                                            EmptyString |} ] |}.
Proof.
  intros fuel c pub key mt w pre p z n md ro post H.
  set (Items := fun sshKey : string =>
         [ {| raw.Key := "sshKeys";
              raw.Value := userName c ++ ":" ++ sshKey
                             ++ String (Ascii.ascii_of_nat 10) EmptyString |} ]).
  set (Q3 := fun (inst : raw.Instance) (sshKey : string) =>
         exists md0,
           raw.Metadata_ inst = Some md0
           /\ md = {| raw.Fingerprint := raw.Fingerprint md0;
                      raw.Items := Items sshKey |}).
  set (Q2 := fun (inst : raw.Instance) (pre : list Event) =>
         exists sshKey, In (Ev_ReadFile pub (sshKey, None)) pre
                        /\ Q3 inst sshKey).
  set (Q1 := fun pre : list Event =>
         exists inst,
           In (Ev_Instances_Get (project c) (zone c) (instanceName c)
                 (Some inst, None)) pre
           /\ Q2 inst pre).
  assert (Hmono1 : forall E0 pre', Q1 pre' -> Q1 (E0 ++ pre')%list).
  { intros E0 pre' (inst & H1 & k & H2 & H3). exists inst.
    split; [apply in_or_app; auto|]. exists k.
    split; [apply in_or_app; auto|exact H3]. }
  assert (Hmono2 : forall inst E0 pre', Q2 inst pre' -> Q2 inst (E0 ++ pre')%list).
  { intros inst E0 pre' (k & H2 & H3). exists k.
    split; [apply in_or_app; auto|exact H3]. }
  assert (Hgoal : Q1 pre);
    [|destruct Hgoal as (inst & H1 & k & H2 & md0 & H3 & H4);
      exists inst, md0, k; auto].
  unfold createInstance in H.
  (* up to the lookup of the instance *)
  repeat first
    [ match type of H with
      | events (bind (instance _ _) _ _) = _ => fail 2
      | events ((match ?x with _ => _ end) _) = _ =>
          destruct x; [try dead H ..]
      end
    | let a := fresh "a" in
      let pre' := fresh "pre" in
      let Ha := fresh "Ha" in
      locate H a pre' Ha; apply Hmono1; clear Ha ].
  (* the lookup and the dereference of its answer *)
  locate H got preG HaG. unfold instance, call in HaG |- *.
  cbn [result events] in HaG |- *. injection HaG as HaG. rewrite HaG.
  clear HaG. destruct got as [oi ei]. destruct ei as [ei|]; [dead H|].
  locate H fetched preI HaI.
  destruct oi as [oi|]; cbn in HaI; [injection HaI as <-|discriminate].
  cbn [events deref ret app].
  assert (Hgoal2 : Q2 oi preI);
    [|exists oi; split; [left; reflexivity|];
      apply (Hmono2 oi [_]); exact Hgoal2].
  clear Hmono1. clearbody Q1.
  (* up to the read of the key file *)
  repeat first
    [ match type of H with
      | events (bind (call (ioutil_ReadFile _ _) _) _ _) = _ => fail 2
      | events ((match ?x with _ => _ end) _) = _ =>
          destruct x; [try dead H ..]
      end
    | let a := fresh "a" in
      let pre' := fresh "pre" in
      let Ha := fresh "Ha" in
      locate H a pre' Ha; apply Hmono2; clear Ha ].
  (* the read, the log line, the metadata of the instance, the call *)
  locate H rd preR HaR. cbn [result events call] in HaR |- *.
  injection HaR as HaR. rewrite HaR. clear HaR.
  destruct rd as [sshKey er]. destruct er as [er|]; [dead H|].
  exists sshKey. split; [left; reflexivity|].
  locate H lg preL HaL. clear HaL.
  locate H mdv preM HaM.
  destruct (raw.Metadata_ oi) as [md0|] eqn:Hmd; cbn in HaM;
    [injection HaM as <-|discriminate].
  cbv zeta in H. rewrite call_bind in H. unfold prepend in H.
  cbn [events app] in H.
  destruct preM as [|q preM]; cbn [app] in H.
  - injection H as _ _ _ Hmd' _ _. exists md0. split; [exact Hmd|].
    symmetry. exact Hmd'.
  - injection H as _ H2. exfalso.
    match type of H2 with
    | events (?K ?w') = _ =>
        assert (Hem : emits notSetMetadata K) by emits_auto;
        eapply (no_such_kind notSetMetadata);
        [ exact (Hem w') | | exact H2 ]; reflexivity
    end.
Qed.

End Properties.

(** ** The googlelogs log driver *)

(** X17.  ValidateLogOpt accepts a configuration exactly when every key of
    it is googlelogs-stream, in whatever order the keys are visited; the
    error it returns otherwise names a key of the configuration other than
    that one. *)
Theorem ValidateLogOpt_accepts :
  forall cfg : googlelogs.Map,
    (googlelogs.ValidateLogOpt cfg = None <->
     Forall (fun kv => fst kv = googlelogs.logStreamKey) cfg)
    /\ (forall e,
           googlelogs.ValidateLogOpt cfg = Some e ->
           exists key,
             In key (map fst cfg)
             /\ key <> googlelogs.logStreamKey
             /\ e = errorString
                      ("unknown log opt '" ++ key
                         ++ "' for googlelogs log driver"))
    /\ (forall cfg',
           Permutation cfg cfg' ->
           (googlelogs.ValidateLogOpt cfg = None <->
            googlelogs.ValidateLogOpt cfg' = None)).
Proof.
  assert (Hiff : forall cfg : googlelogs.Map,
             googlelogs.ValidateLogOpt cfg = None <->
             Forall (fun kv => fst kv = googlelogs.logStreamKey) cfg).
  { induction cfg as [|[key v] rest IH]; cbn [googlelogs.ValidateLogOpt].
    - split; auto.
    - destruct (String.eqb_spec key googlelogs.logStreamKey) as [->|Hk].
      + rewrite IH. split.
        * intros H. constructor; [reflexivity|exact H].
        * intros H. inversion H. assumption.
      + split; [discriminate|].
        intros H. inversion H. cbn in *. contradiction. }
  intros cfg. split; [apply Hiff|]. split.
  - induction cfg as [|[key v] rest IH]; cbn [googlelogs.ValidateLogOpt];
      intros e H.
    + discriminate.
    + destruct (String.eqb_spec key googlelogs.logStreamKey) as [->|Hk].
      * destruct (IH e H) as (k & Hin & Hne & He).
        exists k. cbn. auto.
      * injection H as <-. exists key. cbn. auto.
  - intros cfg' Hp. rewrite !Hiff. split; intros H.
    + exact (Permutation_Forall Hp H).
    + exact (Permutation_Forall (Permutation_sym Hp) H).
Qed.

(** X18.  New checks the host name three times and never the instance name
    or the zone: once the project, the clients and a non-empty host name are
    there, it returns a stream whatever the instance-name and zone lookups
    answered, with the strings they returned.  The error that comes with a
    non-empty project id is dropped, the log is named by the
    googlelogs-stream option when that is non-empty and by the container id
    otherwise, and an empty project id or host name that comes without an
    error makes New return neither a logger nor an error. *)
Theorem New_outcome :
  forall (HttpClient Client : Type)
         (pf : googlelogs.Platform HttpClient Client) ctx,
    let logName :=
      if googlelogs.index (googlelogs.Config ctx) googlelogs.logStreamKey
         =? ""
      then googlelogs.ContainerID ctx
      else googlelogs.index (googlelogs.Config ctx) googlelogs.logStreamKey
    in
    (forall e,
        googlelogs.metadata_ProjectID _ _ pf = ("", e) ->
        snd (googlelogs.New _ _ pf ctx) = Done (None, e))
    /\ (forall projID e0 hc cl host e1,
           googlelogs.metadata_ProjectID _ _ pf = (projID, e0) ->
           projID <> "" ->
           googlelogs.google_DefaultClient _ _ pf = (hc, None) ->
           googlelogs.logging_NewClient _ _ pf projID hc projID logName
             = (Some cl, None) ->
           googlelogs.metadata_Hostname _ _ pf = (host, e1) ->
           (host = "" -> snd (googlelogs.New _ _ pf ctx) = Done (None, e1))
           /\ (host <> "" ->
               googlelogs.New _ _ pf ctx
               = ([],
                  Done (Some
                          {| googlelogs.client := cl;
                             googlelogs.hostname := host;
                             googlelogs.instanceName :=
                               fst (googlelogs.metadata_InstanceName _ _ pf);
                             googlelogs.zone :=
                               fst (googlelogs.metadata_Zone _ _ pf);
                             googlelogs.closed := false |},
                        None)))).
Proof.
  intros HttpClient Client pf ctx logName. split.
  - intros e H. unfold googlelogs.New. rewrite H. reflexivity.
  - intros projID e0 hc cl host e1 Hp Hne Hc Hn Hh.
    unfold googlelogs.New. rewrite Hp.
    destruct (String.eqb_spec projID "") as [|_]; [contradiction|].
    rewrite Hc.
    replace (if negb
                  (googlelogs.index (googlelogs.Config ctx)
                     googlelogs.logStreamKey =? "")
             then googlelogs.index (googlelogs.Config ctx)
                    googlelogs.logStreamKey
             else googlelogs.ContainerID ctx) with logName
      by (subst logName;
          destruct (googlelogs.index (googlelogs.Config ctx)
                      googlelogs.logStreamKey =? ""); reflexivity).
    rewrite Hn, Hh.
    destruct (googlelogs.metadata_InstanceName HttpClient Client pf)
      as [iname e2].
    destruct (googlelogs.metadata_Zone HttpClient Client pf) as [zn e3].
    destruct (String.eqb_spec host "") as [He|He]; split; intros H;
      try contradiction; reflexivity.
Qed.

(** X19.  Close changes nothing, and nothing in the driver sets the closed
    flag: a stream returned by New hands every message to the client, also
    after Close, as one entry with the message's line and time.  Log returns
    nil whatever the client's Log returns. *)
Theorem Close_does_not_stop_Log :
  forall (HttpClient Client : Type)
         (pf : googlelogs.Platform HttpClient Client) ctx lines l
         clientLog msg,
    googlelogs.New _ _ pf ctx = (lines, Done (Some l, None)) ->
    googlelogs.Close _ l = (l, None)
    /\ snd (googlelogs.Log _ clientLog (fst (googlelogs.Close _ l)) msg) = None
    /\ exists entry,
        fst (googlelogs.Log _ clientLog (fst (googlelogs.Close _ l)) msg)
          = [entry]
        /\ googlelogs.Payload entry = googlelogs.msg_Line msg
        /\ googlelogs.Time entry = googlelogs.msg_Timestamp msg
        /\ googlelogs.index (googlelogs.Labels entry) "Hostname"
           = googlelogs.hostname _ l.
Proof.
  intros HttpClient Client pf ctx lines l clientLog msg H.
  assert (Hopen : googlelogs.closed _ l = false).
  { unfold googlelogs.New in H.
    repeat match type of H with
           | context [let '(_, _) := ?x in _] => destruct x
           | context [match ?x with _ => _ end] => destruct x
           end;
      try discriminate; injection H as _ <-; reflexivity. }
  split; [reflexivity|].
  unfold googlelogs.Close, googlelogs.Log. cbn [fst]. rewrite Hopen.
  cbn [negb fst snd]. split; [reflexivity|].
  eexists. split; [reflexivity|]. cbn. auto.
Qed.


(** ** The theorems on the scripted provider *)

Import Script.

Lemma GetState_table_witness :
  newGCEService env (storePath driver) t_unknown_status
    = (None, tl t_unknown_status)
  /\ Disks_Get env (Project driver) (Zone driver)
       (InstanceName driver ++ "-disk") (tl t_unknown_status)
     = ((None, Some notFound), tl (tl t_unknown_status))
  /\ Instances_Get env (Project driver) (Zone driver) (InstanceName driver)
       (tl (tl t_unknown_status))
     = ((Some (theInstance "SUSPENDED"), None), [])
  /\ result (GetState env driver t_unknown_status) = Done (state.None, None)
  /\ mutations (events (GetState env driver t_unknown_status)) = []
  /\ final (GetState env driver t_unknown_status) = [].
Proof.
  split; [reflexivity|]. split; [reflexivity|]. split; [reflexivity|].
  apply (GetState_table env driver t_unknown_status (tl t_unknown_status)
           (tl (tl t_unknown_status)) [] None (Some notFound)
           (Some (theInstance "SUSPENDED")) None);
    reflexivity.
Defined.

Lemma Create_instance_exists_witness :
  newGCEService env (storePath driver) t_create_exists
    = (None, tl t_create_exists)
  /\ Instances_Get env (Project driver) (Zone driver) (InstanceName driver)
       (tl t_create_exists)
     = ((Some (theInstance "RUNNING"), None), [])
  /\ result (Create env 5 driver t_create_exists)
     = Done (Some (errorString "Instance test-instance already exists."))
  /\ events (Create env 5 driver t_create_exists)
     = [ Ev_newGCEService "/tmp/store" None;
         Ev_Log InfoLevel "Creating GCE host..." [];
         Ev_Instances_Get "proj" "us-central1-a" "test-instance"
           (Some (theInstance "RUNNING"), None) ]
  /\ mutations (events (Create env 5 driver t_create_exists)) = []
  /\ final (Create env 5 driver t_create_exists) = [].
Proof.
  split; [reflexivity|]. split; [reflexivity|].
  apply (Create_instance_exists env 5 driver t_create_exists
           (tl t_create_exists) [] (theInstance "RUNNING") None);
    reflexivity.
Defined.

Lemma waitForOp_polls_witness :
  (result (waitForOp env 5 c "op-1" t_three_polls) = Done None
   /\ polls (events (waitForOp env 5 c "op-1" t_three_polls)) = 3
   /\ final (waitForOp env 5 c "op-1" t_three_polls) = [])
  /\ (result (waitForOp env 5 c "op-1" t_done_failed)
      = Done (Some (errorString
                      "Operation error: {QUOTA_EXCEEDED  Quota 'CPUS' exceeded.}"))
      /\ polls (events (waitForOp env 5 c "op-1" t_done_failed)) = 1
      /\ final (waitForOp env 5 c "op-1" t_done_failed) = [ok "op-1"]).
Proof.
  split.
  - apply (proj1 (waitForOp_polls env) 5 c "op-1" t_three_polls
             (tl t_three_polls) (tl (tl t_three_polls)) []
             (op "op-1" "RUNNING" []) (op "op-1" "RUNNING" [])
             (op "op-1" "DONE" []));
      try reflexivity; lia.
  - apply (proj2 (waitForOp_polls env) 5 c "op-1" t_done_failed [ok "op-1"]
             (op "op-1" "DONE" [quota; other]) quota [other]);
      try reflexivity; lia.
Defined.

Lemma waitForOp_each_poll_witness :
  (result (waitForOp env 1 c "op-1" t_poll_transport) = Done (Some timeout)
   /\ events (waitForOp env 1 c "op-1" t_poll_transport)
      = [Ev_ZoneOperations_Get "proj" "us-central1-a" "op-1"
           (None, Some timeout)]
   /\ final (waitForOp env 1 c "op-1" t_poll_transport) = [ok "op-1"])
  /\ (result (waitForOp env 1 c "op-1" t_done_failed)
      = Done (Some (errorString ("Operation error: " ++ fmt_v quota)))
      /\ polls (events (waitForOp env 1 c "op-1" t_done_failed)) = 1
      /\ final (waitForOp env 1 c "op-1" t_done_failed) = [ok "op-1"])
  /\ waitForOp env 2 c "op-1" t_running_with_errors
     = prepend [ Ev_ZoneOperations_Get "proj" "us-central1-a" "op-1"
                   (Some (op "op-1" "RUNNING" [quota]), None);
                 Ev_Log DebugLevel "operation %q status: %s"
                   ["op-1"; "RUNNING"];
                 Ev_Sleep 1 ]
         (waitForOp env 1 c "op-1" [ok "op-1"]).
Proof.
  split; [|split].
  - apply (proj1 (waitForOp_each_poll env 0 c "op-1" t_poll_transport
                    [ok "op-1"]) None timeout).
    reflexivity.
  - apply (proj1 (proj2 (waitForOp_each_poll env 0 c "op-1" t_done_failed
                           [ok "op-1"]))
             (op "op-1" "DONE" [quota; other]) quota [other]);
      reflexivity.
  - apply (proj2 (proj2 (waitForOp_each_poll env 1 c "op-1"
                           t_running_with_errors [ok "op-1"]))
             (op "op-1" "RUNNING" [quota])).
    + reflexivity.
    + discriminate.
Defined.

(** C5 as stated fails: the first poll answers RUNNING on an operation that
    carries an error, and the waiter neither fails on it nor stops; it polls
    again and returns nil on the DONE that follows. *)
Lemma waitForOp_running_with_errors :
  ZoneOperations_Get env (project c) (zone c) "op-1" t_running_with_errors
    = ((Some (op "op-1" "RUNNING" [quota]), None), [ok "op-1"])
  /\ raw.Op_Error (op "op-1" "RUNNING" [quota])
     = Some {| raw.Errors := [quota] |}
  /\ result (waitForOp env 2 c "op-1" t_running_with_errors) = Done None
  /\ polls (events (waitForOp env 2 c "op-1" t_running_with_errors)) = 2
  /\ result (waitForOp env 2 c "op-1" t_running_with_errors)
     <> Done (Some (errorString ("Operation error: " ++ fmt_v quota))).
Proof.
  repeat split; try reflexivity. discriminate.
Qed.

Lemma lookup_passthrough_witness :
  (result (disk env c t_disk_missing) = Done (None, Some notFound)
   /\ events (disk env c t_disk_missing)
      = [Ev_Disks_Get "proj" "us-central1-a" "test-instance-disk"
           (None, Some notFound)]
   /\ final (disk env c t_disk_missing) = [])
  /\ (result (instance env c t_instance_missing) = Done (None, Some notFound)
      /\ events (instance env c t_instance_missing)
         = [Ev_Instances_Get "proj" "us-central1-a" "test-instance"
              (None, Some notFound)]
      /\ final (instance env c t_instance_missing) = []).
Proof.
  split.
  - apply (proj1 (lookup_passthrough env c t_disk_missing [])).
    reflexivity.
  - apply (proj2 (lookup_passthrough env c t_instance_missing [])).
    reflexivity.
Defined.

(** C6 as stated fails: the provider answers both lookups with its not-found
    error, and both accessors return that error with the nil pointer, not
    the pair (nil, nil). *)
Lemma lookup_not_found_is_an_error :
  isNotFound notFound = true
  /\ Disks_Get env (project c) (zone c) (diskName c) t_disk_missing
     = ((None, Some notFound), [])
  /\ result (disk env c t_disk_missing) = Done (None, Some notFound)
  /\ result (disk env c t_disk_missing) <> Done (None, None)
  /\ Instances_Get env (project c) (zone c) (instanceName c)
       t_instance_missing
     = ((None, Some notFound), [])
  /\ result (instance env c t_instance_missing) = Done (None, Some notFound)
  /\ result (instance env c t_instance_missing) <> Done (None, None).
Proof.
  repeat split; try reflexivity; discriminate.
Qed.





Lemma createInstance_disk_guard_witness :
  (~ In K_Disks_Insert
       (mutations
          (events (createInstance env 5 c "/tmp/store/id_rsa.pub"
                     "/tmp/store/id_rsa" "n1-standard-1"
                     (t_create_disk_present None))))
   /\ exists ro rest,
       events (createInstance env 5 c "/tmp/store/id_rsa.pub"
                 "/tmp/store/id_rsa" "n1-standard-1"
                 (t_create_disk_present None))
       = ([ Ev_Log InfoLevel "Creating instance." [];
            Ev_Disks_Get "proj" "us-central1-a" "test-instance-disk"
              (Some theDisk, None);
            Ev_Instances_Insert "proj" "us-central1-a"
              (newInstance c "n1-standard-1") ro ] ++ rest)%list)
  /\ (exists rest,
         events (createInstance env 5 c "/tmp/store/id_rsa.pub"
                   "/tmp/store/id_rsa" "n1-standard-1" t_create_disk_absent)
         = ([ Ev_Log InfoLevel "Creating instance." [];
              Ev_Disks_Get "proj" "us-central1-a" "test-instance-disk"
                (None, Some notFound) ]
              ++ events (createDisk env 5 c (tl t_create_disk_absent))
              ++ rest)%list
         /\ mutations (events (createDisk env 5 c (tl t_create_disk_absent)))
            = [K_Disks_Insert]
         /\ (result (createDisk env 5 c (tl t_create_disk_absent))
               <> Done None -> rest = [])
         /\ (result (createDisk env 5 c (tl t_create_disk_absent))
               = Done None ->
             exists ro rest',
               rest = Ev_Instances_Insert "proj" "us-central1-a"
                        (newInstance c "n1-standard-1") ro :: rest')).
Proof.
  split.
  - apply (proj1 (createInstance_disk_guard env 5 c "/tmp/store/id_rsa.pub"
                    "/tmp/store/id_rsa" "n1-standard-1"
                    (t_create_disk_present None)
                    (tl (t_create_disk_present None)) (Some theDisk) None
                    eq_refl)).
    discriminate.
  - apply (proj2 (createInstance_disk_guard env 5 c "/tmp/store/id_rsa.pub"
                    "/tmp/store/id_rsa" "n1-standard-1" t_create_disk_absent
                    (tl t_create_disk_absent) None (Some notFound) eq_refl)).
    reflexivity.
Defined.

Lemma Restart_calls_witness :
  result (Restart env 5 driver t_restart) = Done None
  /\ ~ In K_Disks_Delete (mutations (events (Restart env 5 driver t_restart)))
  /\ (mutations (events (Restart env 5 driver t_restart))
        = [K_Instances_Delete; K_Instances_Insert; K_Instances_SetMetadata]
      \/ mutations (events (Restart env 5 driver t_restart))
         = [K_Instances_Delete; K_Disks_Insert; K_Instances_Insert;
            K_Instances_SetMetadata]).
Proof.
  split; [reflexivity|]. split.
  - apply (proj1 (Restart_calls env 5 driver t_restart)).
  - apply (proj2 (proj2 (Restart_calls env 5 driver t_restart))). reflexivity.
Defined.


(** ** The further properties on the scripted provider *)

Import Scenarios.


Lemma waitForOp_panics_witness :
  (result (waitForOp env 1 c "op-1" t_poll_nil)
     = Panicked "invalid memory address or nil pointer dereference"
   /\ polls (events (waitForOp env 1 c "op-1" t_poll_nil)) = 1
   /\ final (waitForOp env 1 c "op-1" t_poll_nil) = [])
  /\ (result (waitForOp env 1 c "op-1" t_poll_empty_errors)
        = Panicked "index out of range"
      /\ polls (events (waitForOp env 1 c "op-1" t_poll_empty_errors)) = 1
      /\ final (waitForOp env 1 c "op-1" t_poll_empty_errors) = []).
Proof.
  split.
  - apply (proj1 (waitForOp_panics env 0 c "op-1" t_poll_nil [])).
    reflexivity.
  - apply (proj2 (waitForOp_panics env 0 c "op-1" t_poll_empty_errors [])
             op_done_empty_errors); reflexivity.
Defined.

Lemma Create_generates_key_first_witness :
  Create env 5 driver t_create_key_fails
  = {| result := Done (Some keyError);
       events :=
         [ Ev_newGCEService "/tmp/store" None;
           Ev_Log InfoLevel "Creating GCE host..." [];
           Ev_Instances_Get "proj" "us-central1-a" "test-instance"
             (None, Some timeout);
           Ev_Log InfoLevel "Generating SSH Key" [];
           Ev_GenerateSSHKey "/tmp/store/id_rsa" (Some keyError) ];
       final := [] |}.
Proof.
  apply (Create_generates_key_first env 5 driver t_create_key_fails
           (tl t_create_key_fails) (tl (tl t_create_key_fails)) []
           (Some timeout) (Some keyError));
    reflexivity.
Defined.

Lemma GetIP_address_witness :
  mutations (events (GetIP env driver t_address)) = []
  /\ final (GetIP env driver t_address) = []
  /\ result (GetIP env driver t_address) = Done ("203.0.113.7", None).
Proof.
  apply (GetIP_address env driver t_address (tl t_address) []
           (Some (theInstance "RUNNING")) None);
    reflexivity.
Defined.

Lemma GetURL_of_address_witness :
  newGCEService env (storePath driver) t_address = (None, tl t_address)
  /\ events (GetURL env driver t_address) = events (GetIP env driver t_address)
  /\ result (GetURL env driver t_address)
     = Done ("tcp://203.0.113.7:2375", None)
  /\ result (GetURL env driver t_address_fails) = Done ("", Some notFound).
Proof.
  split; [reflexivity|].
  pose proof (GetURL_of_address env driver t_address (tl t_address) []
                eq_refl) as (Hev & Hok & _).
  pose proof (GetURL_of_address env driver t_address_fails
                (tl t_address_fails) [] eq_refl) as (_ & _ & Herr).
  split; [exact Hev|]. split.
  - exact (Hok (theInstance "RUNNING") _ _ _ _ eq_refl eq_refl eq_refl).
  - exact (Herr None notFound eq_refl).
Defined.

Lemma GetSSHCommand_never_fails_witness :
  result (GetIP env driver t_address_fails) = Done ("", Some notFound)
  /\ result (GetSSHCommand env driver ["docker"; "ps"] t_address_fails)
     = Done ({| cmd_ip := ""; cmd_port := 22; cmd_user := "user";
                cmd_keyPath := "/tmp/store/id_rsa";
                cmd_args := ["docker"; "ps"] |}, None)
  /\ (exists a e, result (GetIP env driver t_address_fails) = Done (a, Some e))
  /\ cmd_ip (fst ({| cmd_ip := ""; cmd_port := 22; cmd_user := "user";
                     cmd_keyPath := "/tmp/store/id_rsa";
                     cmd_args := ["docker"; "ps"] |}, @None error)) = "".
Proof.
  split; [reflexivity|]. split; [reflexivity|].
  assert (Hex : exists a e,
             result (GetIP env driver t_address_fails) = Done (a, Some e))
    by (exists "", notFound; reflexivity).
  split; [exact Hex|].
  apply (GetSSHCommand_never_fails env driver ["docker"; "ps"]
           t_address_fails
           ({| cmd_ip := ""; cmd_port := 22; cmd_user := "user";
               cmd_keyPath := "/tmp/store/id_rsa";
               cmd_args := ["docker"; "ps"] |}, None) eq_refl).
  exact Hex.
Defined.

Lemma Upgrade_runs_updateDocker_witness :
  result (Upgrade env driver t_upgrade) = Done None
  /\ mutations (events (Upgrade env driver t_upgrade)) = []
  /\ final (Upgrade env driver t_upgrade) = []
  /\ filter isSSHRun (events (Upgrade env driver t_upgrade))
     = map (fun cmd => Ev_SSHRun "203.0.113.7" 22 "user" "/tmp/store/id_rsa"
                         cmd None)
         [ "sudo service docker stop";
           "sleep 10";
           "sudo wget https://get.docker.com/builds/Linux/x86_64/docker-latest -O /usr/bin/docker && sudo chmod +x /usr/bin/docker";
           "sudo service docker start" ].
Proof.
  pose proof (Upgrade_runs_updateDocker env driver t_upgrade) as [Hm Hr].
  destruct (Hr c "203.0.113.7" eq_refl eq_refl) as (Hres & Hev & Hfin).
  split; [rewrite Hres; reflexivity|]. split; [exact Hm|].
  split; [rewrite Hfin; reflexivity|]. rewrite Hev. reflexivity.
Defined.

Lemma Remove_in_other_states_witness :
  result (GetState env driver (final (newComputeUtil env driver t_remove_nothing)))
    = Done (state.None, None)
  /\ result (Remove env 5 driver t_remove_nothing) = Done (Some notFound)
  /\ mutations (events (Remove env 5 driver t_remove_nothing))
     = [K_Disks_Delete].
Proof.
  split; [reflexivity|].
  destruct (Remove_in_other_states env 5 driver t_remove_nothing c state.None
              eq_refl eq_refl) as (Hres & _ & Hmut & Herr);
    [discriminate|].
  split; [|exact Hmut].
  exact (Herr None notFound [] eq_refl).
Defined.

Lemma createInstance_sends_fetched_fingerprint_witness :
  let evs :=
    events (createInstance env 5 c "/tmp/store/id_rsa.pub" "/tmp/store/id_rsa"
              "n1-standard-1" (t_create_disk_present None)) in
  let md :=
    {| raw.Fingerprint := "fp-1";
       raw.Items :=
         [ {| raw.Key := "sshKeys";
              raw.Value := "user" ++ ":" ++ pubKey
                             ++ String (Ascii.ascii_of_nat 10) EmptyString |} ]
    |} in
  evs = (firstn 11 evs
           ++ Ev_Instances_SetMetadata "proj" "us-central1-a" "test-instance"
                md (Some (op "op-metadata" "DONE" []), None)
           :: skipn 12 evs)%list
  /\ exists inst md0 sshKey,
      In (Ev_Instances_Get "proj" "us-central1-a" "test-instance"
            (Some inst, None)) (firstn 11 evs)
      /\ In (Ev_ReadFile "/tmp/store/id_rsa.pub" (sshKey, None))
           (firstn 11 evs)
      /\ raw.Metadata_ inst = Some md0
      /\ md = {| raw.Fingerprint := raw.Fingerprint md0;
                 raw.Items :=
                   [ {| raw.Key := "sshKeys";
                        raw.Value := "user" ++ ":" ++ sshKey
                                       ++ String (Ascii.ascii_of_nat 10)
                                            EmptyString |} ] |}.
Proof.
  intros evs md. split; [reflexivity|].
  apply (createInstance_sends_fetched_fingerprint env 5 c
           "/tmp/store/id_rsa.pub" "/tmp/store/id_rsa" "n1-standard-1"
           (t_create_disk_present None) (firstn 11 evs)
           "proj" "us-central1-a" "test-instance" md
           (Some (op "op-metadata" "DONE" []), None) (skipn 12 evs)).
  reflexivity.
Defined.

Lemma New_outcome_witness :
  googlelogs.New _ _ pf_no_zone ctx_plain
  = ([], Done (Some stream_no_zone, None)).
Proof.
  apply (proj2 (New_outcome unit unit pf_no_zone ctx_plain)
           "my-project" None (Some tt) tt "host-1" None);
    try reflexivity; discriminate.
Defined.

Lemma Close_does_not_stop_Log_witness :
  let msg :=
    {| googlelogs.msg_ContainerID := "0123abcd";
       googlelogs.msg_Line := "hello"; googlelogs.msg_Source := "stdout";
       googlelogs.msg_Timestamp := 1445000000 |} in
  googlelogs.New _ _ pf_no_zone ctx_plain
    = ([], Done (Some stream_no_zone, None))
  /\ googlelogs.Close _ stream_no_zone = (stream_no_zone, None)
  /\ snd (googlelogs.Log _ (fun _ => Some timeout)
            (fst (googlelogs.Close _ stream_no_zone)) msg) = None
  /\ exists entry,
      fst (googlelogs.Log _ (fun _ => Some timeout)
             (fst (googlelogs.Close _ stream_no_zone)) msg) = [entry]
      /\ googlelogs.Payload entry = "hello"
      /\ googlelogs.Time entry = 1445000000%Z
      /\ googlelogs.index (googlelogs.Labels entry) "Hostname" = "host-1".
Proof.
  intros msg. split; [reflexivity|].
  apply (Close_does_not_stop_Log unit unit pf_no_zone ctx_plain []
           stream_no_zone (fun _ => Some timeout) msg).
  reflexivity.
Defined.
